(** * InfiniView: the canvas compositor and the expansion requester

    A shallow embedding of [src/App.tsx] (the [App] component and the
    [CanvasEditor] component that follows it in the same file) and of
    [src/services/gemini.ts].

    - JavaScript numbers are IEEE-754 binary64 values: the executable
      specification [spec_float] of the Standard Library at precision
      53, with its correctly rounded operations.
    - The 2D canvas is a record with its dimensions, its bitmap and the
      part of the drawing state this code touches.
    - A call that can throw, or an awaited one that may never settle,
      returns an [outcome].
    - What the platform decides is a class the theorems are stated
      over: the answer of the external service, the PNG encoder, and
      the blend of a partly transparent pixel with its backdrop. *)

From Stdlib Require Import ZArith Lia List String Ascii Bool Floats.
Import ListNotations.

Set Implicit Arguments.

(* ================================================================= *)
(** ** JavaScript values *)

Module JS.

(** A JS [number]. *)
Definition number : Type := spec_float.

Definition mul : number -> number -> number := SFmul prec emax.
Definition div : number -> number -> number := SFdiv prec emax.
Definition add : number -> number -> number := SFadd prec emax.

(** An integer literal, or an integer-valued DOM attribute read as a
    number. *)
Definition of_Z (z : Z) : number := binary_normalize prec emax z 0 false.

(** [x === y] on numbers. *)
Definition strict_eq (x y : number) : bool := SFeqb x y.

(** [x >= 0]: false for NaN, true for both zeros. *)
Definition ge0 (x : number) : bool := SFleb (S754_zero false) x.

(** Not below zero: both zeros, the positive numbers, [Infinity], and
    NaN as well. *)
Definition not_negative (x : number) : bool :=
  match x with
  | S754_zero _ | S754_nan => true
  | S754_finite s _ _ | S754_infinity s => negb s
  end.

(** [Math.floor]. *)
Definition Math_floor (x : number) : number :=
  match x with
  | S754_finite s m e =>
      if (0 <=? e)%Z then x
      else
        let z := Z.shiftr (cond_Zopp s (Zpos m)) (- e) in
        if (z =? 0)%Z then S754_zero s else of_Z z
  | _ => x
  end.

(** The integer part of a finite number, [None] for NaN and the
    infinities. *)
Definition truncZ (x : number) : option Z :=
  match x with
  | S754_zero _ => Some 0%Z
  | S754_finite s m e => Some (cond_Zopp s (Z.shiftl (Zpos m) e))
  | S754_infinity _ | S754_nan => None
  end.

(** WebIDL conversion of a number to [unsigned long]. *)
Definition ToUint32 (x : number) : Z :=
  match truncZ x with
  | Some z => (z mod 2 ^ 32)%Z
  | None => 0%Z
  end.

(** Truthiness of a string: every string but the empty one. *)
Definition truthy (s : string) : bool :=
  match s with
  | EmptyString => false
  | String _ _ => true
  end.

(** Truthiness of a property that may be [undefined]. *)
Definition truthy_opt (s : option string) : bool :=
  match s with
  | Some v => truthy v
  | None => false
  end.

(** [a || b] on strings, [a] possibly [undefined]. *)
Definition or_else (a : option string) (b : string) : string :=
  match a with
  | Some v => if truthy v then v else b
  | None => b
  end.

(** A thrown [Error]. *)
Record Error : Type := mkError { message : string }.

(** The result of a call that may throw; for an awaited call,
    [Pending] is the promise that never settles. *)
Inductive outcome (A : Type) : Type :=
| Returns (a : A)
| Throws (e : Error)
| Pending.

Arguments Returns {A} a.
Arguments Throws {A} e.
Arguments Pending {A}.

End JS.

(* ================================================================= *)
(** ** src/types.ts *)

Record ExpansionSettings : Type := mkSettings {
  top : JS.number;
  bottom : JS.number;
  left : JS.number;
  right : JS.number;
  prompt : string
}.

Inductive AppState : Type := IDLE | EDITING | GENERATING | COMPLETE | ERROR.

(* ================================================================= *)
(** ** src/services/gemini.ts *)

Module Gemini.
Import JS.
Local Open Scope string_scope.

(** The shapes the code reads and writes.  Every property of a
    response may be absent.  [inlineData], [mimeType], [data], [text]
    and [candidates] are tested before use; [content] and [parts] are
    dereferenced as they are, which throws a [TypeError] when they are
    absent. *)
Record Blob : Type := mkBlob {
  mimeType : option string;
  data : option string
}.

Record Part : Type := mkPart {
  text : option string;
  inlineData : option Blob
}.

Record Content : Type := mkContent { parts : option (list Part) }.

Record Candidate : Type := mkCandidate { content : option Content }.

Record Response : Type := mkResponse {
  candidates : option (list Candidate)
}.

Record Config : Type := mkConfig {
  systemInstruction : string;
  temperature : number
}.

Record Request : Type := mkRequest {
  model : string;
  contents : Content;
  config : Config
}.

(** The external service: [ai.models.generateContent]. *)
Class GenAI : Type := generateContent : Request -> outcome Response.

Definition textPart (s : string) : Part := mkPart (Some s) None.

Definition imagePart (mime payload : string) : Part :=
  mkPart None (Some (mkBlob (Some mime) (Some payload))).

(** [dropPrefix p s] is [Some rest] when [s] is [p ++ rest]. *)
Fixpoint dropPrefix (p s : string) : option string :=
  match p with
  | EmptyString => Some s
  | String a p' =>
      match s with
      | EmptyString => None
      | String b s' => if Ascii.eqb a b then dropPrefix p' s' else None
      end
  end.

(** The alternation [(png|jpeg|jpg|webp)] followed by [;base64,],
    tried from left to right. *)
Definition mimeAlternatives : list string := ["png"; "jpeg"; "jpg"; "webp"].

Fixpoint matchAlternatives (alts : list string) (s : string) : option string :=
  match alts with
  | [] => None
  | alt :: rest =>
      match dropPrefix (alt ++ ";base64,") s with
      | Some tail => Some tail
      | None => matchAlternatives rest s
      end
  end.

(** [.replace(/^data:image\/(png|jpeg|jpg|webp);base64,/, '')]. *)
Definition stripDataUrlPrefix (base64Image : string) : string :=
  match dropPrefix "data:image/" base64Image with
  | Some afterImage =>
      match matchAlternatives mimeAlternatives afterImage with
      | Some payload => payload
      | None => base64Image
      end
  | None => base64Image
  end.

Definition newline : string := String (ascii_of_nat 10) EmptyString.

Definition systemInstructionText : string :=
  "You are an expert image editor and artist specializing in 'outpainting' or image extension. "
  ++ newline ++
  "    The user will provide an image that has been placed on a larger canvas with white/blank space around it. "
  ++ newline ++
  "    Your task is to fill in this white space seamlessly, matching the style, lighting, texture, and context of the original central image. "
  ++ newline ++
  "    Do not alter the original central content if possible, but blend the edges naturally. "
  ++ newline ++
  "    The output should be a single, cohesive image.".

Definition promptSuffix : string :=
  ". Fill the surrounding empty white space to expand the scene naturally.".

Definition fallbackPrompt : string :=
  "Fill the surrounding empty white space to expand the scene naturally, matching the existing style and context seamlessly.".

Definition userPrompt (prompt : string) : string :=
  if truthy prompt then prompt ++ promptSuffix else fallbackPrompt.

(** The argument of [generateContent]. *)
Definition buildRequest (base64Image prompt : string) : Request :=
  let base64Data := stripDataUrlPrefix base64Image in
  mkRequest "gemini-2.5-flash-image"
    (mkContent (Some [ textPart (userPrompt prompt);
                       imagePart "image/png" base64Data ]))
    (mkConfig systemInstructionText (div (of_Z 4) (of_Z 10))).

Definition noImageError : Error :=
  mkError "No image data returned from Gemini. The model may have refused the request or generated only text.".

(** The [TypeError] of [candidates[0].content.parts] on a candidate
    without [content], and of the [for ... of] on a content without
    [parts], with the messages of V8. *)
Definition noContentError : Error :=
  mkError "Cannot read properties of undefined (reading 'parts')".

Definition noPartsError : Error := mkError "parts is not iterable".

(** [part.inlineData && part.inlineData.data]. *)
Definition isImagePart (part : Part) : bool :=
  match inlineData part with
  | Some blob => truthy_opt (data blob)
  | None => false
  end.

(** The template literal of the [return]. *)
Definition dataUrlOf (mime : option string) (payload : string) : string :=
  "data:" ++ or_else mime "image/png" ++ ";base64," ++ payload.

(** The [for (const part of parts)] loop with its early return. *)
Fixpoint scanParts (ps : list Part) : option string :=
  match ps with
  | [] => None
  | part :: rest =>
      match inlineData part with
      | Some blob =>
          match data blob with
          | Some payload =>
              if truthy payload then Some (dataUrlOf (mimeType blob) payload)
              else scanParts rest
          | None => scanParts rest
          end
      | None => scanParts rest
      end
  end.

(** What follows the [await]. *)
Definition extractImage (response : Response) : outcome string :=
  match candidates response with
  | Some (first :: _) =>
      match content first with
      | Some c =>
          match parts c with
          | Some ps =>
              match scanParts ps with
              | Some url => Returns url
              | None => Throws noImageError
              end
          | None => Throws noPartsError
          end
      | None => Throws noContentError
      end
  | Some [] | None => Throws noImageError
  end.

(** A call of [expandImage]: the requests it has sent to the service
    and how it ends. *)
Record Call : Type := mkCall {
  requested : list Request;
  answer : outcome string
}.

(** [expandImage]: one request; the [catch] block logs and rethrows,
    so a failure of the service goes to the caller as it is; while the
    service does not answer, neither does [expandImage]. *)
Definition expandImage `{GenAI} (base64Image prompt : string) : Call :=
  let request := buildRequest base64Image prompt in
  mkCall [request]
    match generateContent request with
    | Returns response => extractImage response
    | Throws e => Throws e
    | Pending => Pending
    end.

Definition partsOf (c : Content) : list Part :=
  match parts c with
  | Some ps => ps
  | None => []
  end.

(** The image payloads a request carries, in order. *)
Definition imagePayloads (request : Request) : list string :=
  flat_map (fun part =>
              match inlineData part with
              | Some blob => match data blob with Some d => [d] | None => [] end
              | None => []
              end)
           (partsOf (contents request)).

(** The text parts a request carries, in order. *)
Definition instructions (request : Request) : list string :=
  flat_map (fun part => match text part with Some t => [t] | None => [] end)
           (partsOf (contents request)).

End Gemini.

(* ================================================================= *)
(** ** The platform: decoded images and the 2D canvas *)

Module Pixel.
Local Open Scope Z_scope.

(** One pixel, 8 bits a channel, alpha not premultiplied. *)
Record RGBA : Type := mkRGBA { red : Z; green : Z; blue : Z; alpha : Z }.

Definition white : RGBA := mkRGBA 255 255 255 255.
Definition black : RGBA := mkRGBA 0 0 0 255.
Definition transparentBlack : RGBA := mkRGBA 0 0 0 0.

Definition opaque (p : RGBA) : bool := alpha p =? 255.

(** How the browser blends a partly transparent pixel onto a
    backdrop, its roundings included: left to the platform. *)
Class Blender : Type := blend : RGBA -> RGBA -> RGBA.

(** Source-over, the default [globalCompositeOperation] of a 2D
    context: an opaque source replaces the backdrop, a fully
    transparent one leaves it, and anything between is blended by the
    browser. *)
Definition source_over `{Blender} (src dst : RGBA) : RGBA :=
  if alpha src =? 255 then src
  else if alpha src =? 0 then dst
  else blend src dst.
End Pixel.

(** A decoded [HTMLImageElement]: it exists once [onload] has fired.
    [width] and [height] are [unsigned long] attributes. *)
Module Img.
Record Image : Type := mkImage {
  width : N;
  height : N;
  pixelAt : Z -> Z -> Pixel.RGBA
}.
End Img.

Module Canvas.
Import JS Pixel.
Local Open Scope Z_scope.

(** Which kind of context the element is bound to: [getContext('2d')]
    gives [null] once it is bound to another kind. *)
Inductive ContextMode : Type := Unbound | Bound2D | BoundOther.

(** An [HTMLCanvasElement] with its 2D drawing state.  Of the drawing
    state only [fillStyle] is ever changed by this code; transform,
    clip, [globalAlpha] and [globalCompositeOperation] keep their
    defaults. *)
Record Canvas : Type := mkCanvas {
  width : Z;
  height : Z;
  bitmap : Z -> Z -> RGBA;
  mode : ContextMode;
  fillStyle : RGBA
}.

(** A canvas element as the browser creates it. *)
Definition blank : Canvas :=
  mkCanvas 300 150 (fun _ _ => transparentBlack) Unbound black.

Definition getContext2d (canvas : Canvas) : option Canvas :=
  match mode canvas with
  | BoundOther => None
  | Unbound | Bound2D =>
      Some (mkCanvas (width canvas) (height canvas) (bitmap canvas)
                     Bound2D (fillStyle canvas))
  end.

(** The value a dimension attribute takes on assignment: an
    [unsigned long], replaced by the default above 2^31 - 1. *)
Definition dimension (default : Z) (v : number) : Z :=
  let n := ToUint32 v in
  if n <=? 2147483647 then n else default.

(** [canvas.width = v]: the bitmap is cleared and the drawing state
    goes back to its defaults. *)
Definition set_width (v : number) (canvas : Canvas) : Canvas :=
  mkCanvas (dimension 300 v) (height canvas)
           (fun _ _ => transparentBlack) (mode canvas) black.

(** [canvas.height = v]. *)
Definition set_height (v : number) (canvas : Canvas) : Canvas :=
  mkCanvas (width canvas) (dimension 150 v)
           (fun _ _ => transparentBlack) (mode canvas) black.

(** [ctx.fillStyle = c]. *)
Definition set_fillStyle (c : RGBA) (canvas : Canvas) : Canvas :=
  mkCanvas (width canvas) (height canvas) (bitmap canvas) (mode canvas) c.

(** [x] lies in the span from [o] to [o + len], either way round. *)
Definition inSpan (o len x : Z) : bool :=
  (Z.min o (o + len) <=? x) && (x <? Z.max o (o + len)).

(** [ctx.fillRect(x, y, w, h)]: nothing is drawn when an argument is
    not finite.  The arguments are whole numbers in this program. *)
Definition fillRect `{Blender} (x y w h : number) (canvas : Canvas) : Canvas :=
  match truncZ x, truncZ y, truncZ w, truncZ h with
  | Some x0, Some y0, Some w0, Some h0 =>
      mkCanvas (width canvas) (height canvas)
        (fun px py =>
           if inSpan x0 w0 px && inSpan y0 h0 py
           then source_over (fillStyle canvas) (bitmap canvas px py)
           else bitmap canvas px py)
        (mode canvas) (fillStyle canvas)
  | _, _, _, _ => canvas
  end.

(** [ctx.drawImage(image, dx, dy)]: the image at its own size, drawn
    source-over; nothing is drawn when an argument is not finite. *)
Definition drawImage `{Blender} (image : Img.Image) (dx dy : number)
    (canvas : Canvas) : Canvas :=
  match truncZ dx, truncZ dy with
  | Some x0, Some y0 =>
      mkCanvas (width canvas) (height canvas)
        (fun px py =>
           if (x0 <=? px) && (px <? x0 + Z.of_N (Img.width image))
              && (y0 <=? py) && (py <? y0 + Z.of_N (Img.height image))
           then source_over (Img.pixelAt image (px - x0) (py - y0))
                            (bitmap canvas px py)
           else bitmap canvas px py)
        (mode canvas) (fillStyle canvas)
  | _, _ => canvas
  end.

(** The PNG encoder of the platform, as base64 text; [None] when the
    bitmap cannot be serialised, as one too large for the browser. *)
Class PngEncoder : Type := encodePNG : Z -> Z -> list RGBA -> option string.

Definition upto (n : Z) : list Z := map Z.of_nat (seq 0 (Z.to_nat n)).

(** The pixels of the bitmap, row by row. *)
Definition raster (canvas : Canvas) : list RGBA :=
  flat_map (fun y => map (fun x => bitmap canvas x y) (upto (width canvas)))
           (upto (height canvas)).

(** [canvas.toDataURL('image/png')]: [data:,] for a bitmap without
    pixels and for one that cannot be serialised. *)
Definition toDataURL `{PngEncoder} (canvas : Canvas) : string :=
  if (width canvas =? 0) || (height canvas =? 0) then "data:,"%string
  else match encodePNG (width canvas) (height canvas) (raster canvas) with
       | Some png => ("data:image/png;base64," ++ png)%string
       | None => "data:,"%string
       end.

End Canvas.

(* ================================================================= *)
(** ** The CanvasEditor component of src/App.tsx *)

Module CanvasEditor.
Import JS Pixel.

(** [imageObj] is [null] until the image has loaded; [canvasRef] is
    [null] while no canvas element is mounted. *)
Record Editor : Type := mkEditor {
  imageObj : option Img.Image;
  canvasRef : option Canvas.Canvas
}.

(** [Math.floor(dim * (pct / 100))]. *)
Definition pad (dim pct : number) : number :=
  Math_floor (mul dim (div pct (of_Z 100))).

Section Geometry.
Context {blender : Blender}.
Variable imageObj : Img.Image.
Variable settings : ExpansionSettings.

Definition w : number := of_Z (Z.of_N (Img.width imageObj)).
Definition h : number := of_Z (Z.of_N (Img.height imageObj)).

Definition padLeft : number := pad w (left settings).
Definition padRight : number := pad w (right settings).
Definition padTop : number := pad h (top settings).
Definition padBottom : number := pad h (bottom settings).

Definition newWidth : number := add (add w padLeft) padRight.
Definition newHeight : number := add (add h padTop) padBottom.

(** The body of the redraw effect, from the context on. *)
Definition composite (ctx : Canvas.Canvas) : Canvas.Canvas :=
  let sized := Canvas.set_height newHeight (Canvas.set_width newWidth ctx) in
  let filled :=
    Canvas.fillRect (of_Z 0) (of_Z 0) newWidth newHeight
      (Canvas.set_fillStyle white sized) in
  Canvas.drawImage imageObj padLeft padTop filled.
End Geometry.

(** The effect that redraws when the settings or the image change. *)
Definition redraw `{Blender} (settings : ExpansionSettings) (ed : Editor) : Editor :=
  match imageObj ed, canvasRef ed with
  | Some image, Some canvas =>
      match Canvas.getContext2d canvas with
      | Some ctx => mkEditor (Some image) (Some (composite image settings ctx))
      | None => ed
      end
  | _, _ => ed
  end.

(** The handle the component exposes. *)
Definition getCanvasDataUrl `{Canvas.PngEncoder} (ed : Editor) : outcome string :=
  match canvasRef ed with
  | Some canvas => Returns (Canvas.toDataURL canvas)
  | None => Returns EmptyString
  end.

End CanvasEditor.

(* ================================================================= *)
(** ** The App component of src/App.tsx *)

Module App.
Import JS.
Local Open Scope string_scope.

Record State : Type := mkState {
  appState : AppState;
  originalImage : option string;
  generatedImage : option string;
  settings : ExpansionSettings;
  errorMsg : option string;
  canvasRef : option CanvasEditor.Editor
}.

(** A run of a handler: the state it leaves and the requests it has
    sent to the external service, in order. *)
Record Run : Type := mkRun {
  final : State;
  sent : list Gemini.Request
}.

Definition isZero (x : number) : bool := strict_eq x (of_Z 0).

Definition noExpansionMessage : string :=
  "Please add some expansion area (Top, Bottom, Left, or Right) before generating.".

Definition genericFailure : string :=
  "Failed to generate image. Please try again.".

Definition with_error (st : State) (a : AppState) (msg : option string) : State :=
  mkState a (originalImage st) (generatedImage st) (settings st) msg (canvasRef st).

Definition with_result (st : State) (img : string) : State :=
  mkState COMPLETE (originalImage st) (Some img) (settings st) None (canvasRef st).

(** [handleGenerate]: the state it has set and the requests it has
    sent once nothing more will happen; while the service does not
    answer, that is what it set before the [await]. *)
Definition handleGenerate `{Gemini.GenAI} `{Canvas.PngEncoder} (st : State) : Run :=
  match canvasRef st with
  | None => mkRun st []
  | Some handle =>
      let s := settings st in
      if isZero (top s) && isZero (bottom s) && isZero (left s) && isZero (right s)
      then mkRun (with_error st (appState st) (Some noExpansionMessage)) []
      else
        match CanvasEditor.getCanvasDataUrl handle with
        | Returns canvasDataUrl =>
            let call := Gemini.expandImage canvasDataUrl (prompt s) in
            match Gemini.answer call with
            | Returns result =>
                mkRun (with_result st result) (Gemini.requested call)
            | Throws err =>
                mkRun (with_error st ERROR
                         (Some (or_else (Some (message err)) genericFailure)))
                      (Gemini.requested call)
            | Pending =>
                mkRun (with_error st GENERATING None) (Gemini.requested call)
            end
        | Throws err =>
            mkRun (with_error st ERROR
                     (Some (or_else (Some (message err)) genericFailure)))
                  []
        | Pending => mkRun (with_error st GENERATING None) []
        end
  end.

End App.

(* ================================================================= *)
(** ** Sample inputs *)

Module Sample.
Import JS Pixel.
Local Open Scope string_scope.

Definition settingsOf (t b l r : Z) (p : string) : ExpansionSettings :=
  mkSettings (of_Z t) (of_Z b) (of_Z l) (of_Z r) p.

(** An image of one colour. *)
Definition plain (wd ht : N) (c : RGBA) : Img.Image :=
  Img.mkImage wd ht (fun _ _ => c).

(** A stand-in for the encoder: the dimensions in unary and one
    letter a pixel, [o] for an opaque one. *)
Definition tally : Canvas.PngEncoder :=
  fun wd ht px =>
    Some (string_of_list_ascii
            (repeat "w"%char (Z.to_nat wd) ++ repeat "h"%char (Z.to_nat ht)
             ++ map (fun p => if opaque p then "o"%char else "t"%char) px)).

(** Two ways a browser may blend: on plain channels with the quotient
    cut off, and on premultiplied channels rounded to the nearest. *)
Definition flooring : Blender :=
  fun src dst =>
    let ao := (alpha src + alpha dst * (255 - alpha src) / 255)%Z in
    let channel (cs cd : Z) : Z :=
      ((cs * alpha src * 255 + cd * alpha dst * (255 - alpha src)) / (255 * ao))%Z in
    if (ao =? 0)%Z then transparentBlack
    else mkRGBA (channel (red src) (red dst))
                (channel (green src) (green dst))
                (channel (blue src) (blue dst))
                ao.

Definition rounding : Blender :=
  fun src dst =>
    let scaled (c a : Z) : Z := ((c * a + 127) / 255)%Z in
    let ao := (alpha src + scaled (alpha dst) (255 - alpha src))%Z in
    let channel (cs cd : Z) : Z :=
      (scaled cs (alpha src)
       + scaled (scaled cd (alpha dst)) (255 - alpha src))%Z in
    let plain (c : Z) : Z := ((c * 255 + ao / 2) / ao)%Z in
    if (ao =? 0)%Z then transparentBlack
    else mkRGBA (plain (channel (red src) (red dst)))
                (plain (channel (green src) (green dst)))
                (plain (channel (blue src) (blue dst)))
                ao.

(** A service that answers every request with the same parts. *)
Definition answering (ps : list Gemini.Part) : Gemini.GenAI :=
  fun _ => Returns (Gemini.mkResponse
                      (Some [Gemini.mkCandidate
                               (Some (Gemini.mkContent (Some ps)))])).

(** A service that returns no candidates. *)
Definition silent : Gemini.GenAI :=
  fun _ => Returns (Gemini.mkResponse None).

Definition mounted (image : option Img.Image) : CanvasEditor.Editor :=
  CanvasEditor.mkEditor image (Some Canvas.blank).

Definition editing (s : ExpansionSettings) (ed : option CanvasEditor.Editor) : App.State :=
  App.mkState EDITING (Some "data:image/png;base64,AAAA") None s None ed.
End Sample.

(* ================================================================= *)
(** ** The handlers of the App component, one state change at a time *)

Module Handlers.
Import JS App.
Local Open Scope string_scope.

Definition INITIAL_SETTINGS : ExpansionSettings :=
  mkSettings (of_Z 0) (of_Z 0) (of_Z 0) (of_Z 0)
             "A beautiful, realistic continuation of the scene".

(** The state of the first render. *)
Definition initial : State := mkState IDLE None None INITIAL_SETTINGS None None.

(** [reader.onload] in [handleFileUpload], [result] being
    [event.target?.result]. *)
Definition fileLoaded (result : option string) (st : State) : State :=
  if truthy_opt result
  then mkState EDITING result (generatedImage st)
               (mkSettings (of_Z 0) (of_Z 0) (of_Z 0) (of_Z 50)
                           (prompt INITIAL_SETTINGS))
               (errorMsg st) (canvasRef st)
  else st.

(** [handleFileUpload]: nothing happens without a file. *)
Definition handleFileUpload (file : option (option string)) (st : State) : State :=
  match file with
  | Some result => fileLoaded result st
  | None => st
  end.

Definition handleReset (st : State) : State :=
  mkState IDLE None None INITIAL_SETTINGS None (canvasRef st).

Definition handleBackToEdit (st : State) : State :=
  mkState EDITING (originalImage st) None (settings st) None (canvasRef st).

Definition withSettings (s : ExpansionSettings) (st : State) : State :=
  mkState (appState st) (originalImage st) (generatedImage st) s
          (errorMsg st) (canvasRef st).

(** The [onChange] handlers of the four sliders and of the prompt. *)
Definition onTop (v : number) (st : State) : State :=
  let s := settings st in
  withSettings (mkSettings v (bottom s) (left s) (right s) (prompt s)) st.

Definition onBottom (v : number) (st : State) : State :=
  let s := settings st in
  withSettings (mkSettings (top s) v (left s) (right s) (prompt s)) st.

Definition onLeft (v : number) (st : State) : State :=
  let s := settings st in
  withSettings (mkSettings (top s) (bottom s) v (right s) (prompt s)) st.

Definition onRight (v : number) (st : State) : State :=
  let s := settings st in
  withSettings (mkSettings (top s) (bottom s) (left s) v (prompt s)) st.

Definition onPrompt (p : string) (st : State) : State :=
  let s := settings st in
  withSettings (mkSettings (top s) (bottom s) (left s) (right s) p) st.

(** [Number(e.target.value)] of a range input with [min] 0, [max] 100
    and [step] 10: the value at notch [k]. *)
Definition sliderValue (k : nat) : number := of_Z (10 * Z.of_nat k).

(** The three stages of [handleGenerate] past its guards: what it sets
    before the [await], after it, and in the [catch]. *)
Definition begin (st : State) : State := with_error st GENERATING None.

Definition succeed (result : string) (st : State) : State :=
  mkState COMPLETE (originalImage st) (Some result) (settings st)
          (errorMsg st) (canvasRef st).

Definition fail (err : Error) (st : State) : State :=
  with_error st ERROR (Some (or_else (Some (message err)) genericFailure)).

(** [canvasRef.current] as React attaches, updates and detaches it. *)
Definition attach (ed : option CanvasEditor.Editor) (st : State) : State :=
  mkState (appState st) (originalImage st) (generatedImage st) (settings st)
          (errorMsg st) ed.

(** The conditions under which the render shows each part. *)
Definition uploadShown (st : State) : bool :=
  match appState st with IDLE => true | _ => false end.

Definition editorShown (st : State) : bool :=
  match appState st with
  | EDITING | GENERATING | ERROR => truthy_opt (originalImage st)
  | _ => false
  end.

Definition resultShown (st : State) : bool :=
  match appState st with
  | COMPLETE => truthy_opt (generatedImage st)
  | _ => false
  end.

Definition errorShown (st : State) : bool :=
  editorShown st && truthy_opt (errorMsg st).

(** One state change of the component: a handler runs, a stage of a
    pending [handleGenerate] runs, or React moves the ref.  The stages
    of [handleGenerate] are separate steps, so that what happens while
    a request is pending is covered. *)
Inductive step : State -> State -> Prop :=
| step_file (file : option (option string)) (st : State) :
    step st (handleFileUpload file st)
| step_top (k : nat) (st : State) :
    (k <= 10)%nat -> step st (onTop (sliderValue k) st)
| step_bottom (k : nat) (st : State) :
    (k <= 10)%nat -> step st (onBottom (sliderValue k) st)
| step_left (k : nat) (st : State) :
    (k <= 10)%nat -> step st (onLeft (sliderValue k) st)
| step_right (k : nat) (st : State) :
    (k <= 10)%nat -> step st (onRight (sliderValue k) st)
| step_prompt (p : string) (st : State) : step st (onPrompt p st)
| step_reset (st : State) : step st (handleReset st)
| step_back (st : State) : step st (handleBackToEdit st)
| step_refused (st : State) :
    step st (with_error st (appState st) (Some noExpansionMessage))
| step_begin (st : State) : step st (begin st)
| step_succeed (response : Gemini.Response) (result : string) (st : State) :
    Gemini.extractImage response = Returns result -> step st (succeed result st)
| step_fail (err : Error) (st : State) : step st (fail err st)
| step_attach (ed : option CanvasEditor.Editor) (st : State) :
    step st (attach ed st).

(** The states the component can be in. *)
Inductive reachable : State -> Prop :=
| reach_initial : reachable initial
| reach_step (st st' : State) : reachable st -> step st st' -> reachable st'.

(** What every state of the component satisfies. *)
Definition isSlider (v : number) : Prop :=
  exists k, (k <= 10)%nat /\ v = sliderValue k.

Definition isDataUrl (url : string) : Prop :=
  exists mime payload,
    url = "data:" ++ mime ++ ";base64," ++ payload
    /\ mime <> EmptyString /\ payload <> EmptyString.

Record invariant (st : State) : Prop := mkInvariant {
  inv_top : isSlider (top (settings st));
  inv_bottom : isSlider (bottom (settings st));
  inv_left : isSlider (left (settings st));
  inv_right : isSlider (right (settings st));
  inv_generated : forall url, generatedImage st = Some url -> isDataUrl url;
  inv_complete : appState st = COMPLETE -> generatedImage st <> None;
  inv_message : forall msg, errorMsg st = Some msg -> msg <> EmptyString;
  inv_error : appState st = ERROR -> errorMsg st <> None;
  inv_original : forall src, originalImage st = Some src -> src <> EmptyString;
  inv_idle : appState st = IDLE -> originalImage st = None /\ generatedImage st = None
}.

(** Some percentage is not zero: the test of the guard, negated. *)
Definition expansionAsked (s : ExpansionSettings) : bool :=
  negb (isZero (top s) && isZero (bottom s) && isZero (left s) && isZero (right s)).

End Handlers.

(* ================================================================= *)
(** ** The pads as the specification words them *)

Module Spec.
Import JS.
Local Open Scope Z_scope.

(** [floor(dim * pct / 100)] on the exact value of [pct], with no
    rounding on the way; [None] where [pct] is not finite. *)
Definition padOf (dim : Z) (pct : number) : option Z :=
  match pct with
  | S754_zero _ => Some 0
  | S754_finite s m e =>
      Some (if 0 <=? e
            then dim * cond_Zopp s (Z.pos m) * 2 ^ e / 100
            else dim * cond_Zopp s (Z.pos m) / (100 * 2 ^ (- e)))
  | S754_infinity _ | S754_nan => None
  end.

End Spec.

(* ================================================================= *)
(** ** Whole numbers as JS numbers *)

Module Whole.
Import JS.
Local Open Scope Z_scope.

(** The binary64 value of a whole number from 1 to 2^53 - 1: 53 digits
    of mantissa, the exponent making up for the shift. *)
Definition normal (v : positive) : number :=
  let shiftBy := 53 - Z.pos (digits2_pos v) in
  S754_finite false (Z.to_pos (Z.shiftl (Z.pos v) shiftBy)) (- shiftBy).

End Whole.

(* ================================================================= *)
(** ** More sample inputs *)

Module Scenario.
Import JS.
Local Open Scope string_scope.

Definition candidateOf (ps : list Gemini.Part) : Gemini.Candidate :=
  Gemini.mkCandidate (Some (Gemini.mkContent (Some ps))).

(** A service whose first candidate only apologises and whose second
    holds an image. *)
Definition twoCandidates : Gemini.GenAI :=
  fun _ => Returns (Gemini.mkResponse
                      (Some [candidateOf [Gemini.textPart "sorry"];
                             candidateOf [Gemini.imagePart "image/png" "AAAA"]])).

(** A service that answers with one candidate without content, as for
    a request stopped for safety. *)
Definition blocked : Gemini.GenAI :=
  fun _ => Returns (Gemini.mkResponse (Some [Gemini.mkCandidate None])).

(** A service that answers with an image of type [image/jpeg] after a
    text part. *)
Definition jpegService : Gemini.GenAI :=
  Sample.answering [Gemini.textPart "here"; Gemini.imagePart "image/jpeg" "AAAA"].

(** A service that fails with an error without a message. *)
Definition failing : Gemini.GenAI := fun _ => Throws (mkError EmptyString).

(** A service that never answers. *)
Definition mute : Gemini.GenAI := fun _ => Pending.

Definition picture : Img.Image := Sample.plain 2 2 Pixel.black.

(** A row of three pixels: an opaque one, a fully transparent one and
    one partly transparent. *)
Definition patchwork : Img.Image :=
  Img.mkImage 3 1
    (fun x _ =>
       if (x =? 0)%Z then Pixel.mkRGBA 0 0 0 255
       else if (x =? 1)%Z then Pixel.mkRGBA 0 0 0 0
       else Pixel.mkRGBA 200 100 50 100).

(** The state after a file has loaded, the editor mounted with the
    image decoded and drawn. *)
Definition uploaded : App.State :=
  let st := Handlers.handleFileUpload (Some (Some "data:image/png;base64,QUJD"))
                                      Handlers.initial in
  Handlers.attach
    (Some (@CanvasEditor.redraw Sample.rounding (App.settings st)
             (Sample.mounted (Some picture))))
    st.

(** The same, the image not yet decoded. *)
Definition undecoded : App.State :=
  let st := Handlers.handleFileUpload (Some (Some "data:image/png;base64,QUJD"))
                                      Handlers.initial in
  Handlers.attach
    (Some (@CanvasEditor.redraw Sample.rounding (App.settings st)
             (CanvasEditor.mkEditor None (Some Canvas.blank))))
    st.

Definition imageService : Gemini.GenAI :=
  Sample.answering [Gemini.textPart "here"; Gemini.imagePart "image/png" "AAAA"].

(** An encoder that cannot serialise anything, as a browser facing a
    bitmap beyond its limits. *)
Definition refusing : Canvas.PngEncoder := fun _ _ _ => None.

End Scenario.

(* ================================================================= *)
(** * Properties *)

Unset Implicit Arguments.
Local Open Scope string_scope.

(** ** The requester: prefix stripping *)

Section Prefix.
Import Gemini.
Local Open Scope string_scope.

Lemma dropPrefix_app (p s : string) : dropPrefix p (p ++ s) = Some s.
Proof.
  induction p as [|a p IH]; simpl.
  - reflexivity.
  - rewrite Ascii.eqb_refl. exact IH.
Qed.

Lemma append_assoc (a b c : string) : (a ++ b) ++ c = a ++ b ++ c.
Proof.
  induction a as [|x a IH]; simpl; [reflexivity | now rewrite IH].
Qed.

Lemma dropPrefix_sound (p : string) :
  forall s r, dropPrefix p s = Some r -> s = p ++ r.
Proof.
  induction p as [|a p IH]; simpl; intros s r E.
  - congruence.
  - destruct s as [|b s]; [discriminate|].
    destruct (Ascii.eqb_spec a b) as [->|]; [|discriminate].
    f_equal. now apply IH.
Qed.

Lemma matchAlternatives_sound (alts : list string) :
  forall s r, matchAlternatives alts s = Some r ->
              exists alt, In alt alts /\ s = alt ++ ";base64," ++ r.
Proof.
  induction alts as [|alt alts IH]; simpl; intros s r E.
  - discriminate.
  - destruct (dropPrefix (alt ++ ";base64,") s) as [t|] eqn:D.
    + injection E as ->. apply dropPrefix_sound in D.
      exists alt. split; [now left|].
      rewrite D, append_assoc. reflexivity.
    + destruct (IH _ _ E) as (a & Ha & ->). exists a. split; [now right|reflexivity].
Qed.

(** The replacement either leaves the text as it is or removes one of
    the four prefixes the expression lists. *)
Lemma stripDataUrlPrefix_cases (buf : string) :
  stripDataUrlPrefix buf = buf
  \/ exists alt, In alt mimeAlternatives
                 /\ buf = "data:image/" ++ alt ++ ";base64," ++ stripDataUrlPrefix buf.
Proof.
  unfold stripDataUrlPrefix.
  destruct (dropPrefix "data:image/" buf) as [after|] eqn:D; [|now left].
  destruct (matchAlternatives mimeAlternatives after) as [payload|] eqn:M; [|now left].
  right. apply dropPrefix_sound in D.
  destruct (matchAlternatives_sound _ _ _ M) as (alt & Hin & ->).
  exists alt. split; [exact Hin|exact D].
Qed.

Lemma stripDataUrlPrefix_listed (alt payload : string) :
  In alt mimeAlternatives ->
  stripDataUrlPrefix ("data:image/" ++ alt ++ ";base64," ++ payload) = payload.
Proof.
  unfold stripDataUrlPrefix, mimeAlternatives.
  intros [<-|[<-|[<-|[<-|[]]]]]; cbn;
    change (dropPrefix EmptyString payload) with (Some payload); reflexivity.
Qed.
End Prefix.

(** ** The requester: what is sent *)

Section Requests.
Import JS Gemini.
Local Open Scope string_scope.
Context {service : GenAI}.

Lemma expandImage_requested (buf prompt : string) :
  requested (expandImage buf prompt) = [buildRequest buf prompt].
Proof. reflexivity. Qed.

Lemma expandImage_payload (buf prompt : string) :
  map imagePayloads (requested (expandImage buf prompt)) = [[stripDataUrlPrefix buf]].
Proof. reflexivity. Qed.

Lemma expandImage_instruction (buf prompt : string) :
  map instructions (requested (expandImage buf prompt)) = [[userPrompt prompt]].
Proof. reflexivity. Qed.

(** C8, as amended: the image payload of the single request is the
    buffer without its prefix when the buffer starts with
    [data:image/T;base64,] for [T] one of png, jpeg, jpg and webp; any
    other buffer, a data URL of another image type included, is sent
    unchanged. *)
Theorem listed_prefix_stripped (buf prompt : string) :
  (forall alt payload,
      In alt mimeAlternatives ->
      buf = "data:image/" ++ alt ++ ";base64," ++ payload ->
      map imagePayloads (requested (expandImage buf prompt)) = [[payload]])
  /\ ((forall alt payload,
          In alt mimeAlternatives ->
          buf <> "data:image/" ++ alt ++ ";base64," ++ payload) ->
      map imagePayloads (requested (expandImage buf prompt)) = [[buf]]).
Proof.
  split.
  - intros alt payload Hin ->. rewrite expandImage_payload.
    now rewrite (stripDataUrlPrefix_listed alt payload Hin).
  - intros Hno. rewrite expandImage_payload.
    destruct (stripDataUrlPrefix_cases buf) as [->|(alt & Hin & E)]; [reflexivity|].
    exfalso. exact (Hno alt _ Hin E).
Qed.

(** C6: the instruction sent is the prompt followed by the fixed suffix
    when the prompt is not empty, and the fixed fallback text when it
    is. *)
Theorem instruction_of_prompt (buf prompt : string) :
  (prompt <> EmptyString ->
   map instructions (requested (expandImage buf prompt))
   = [[prompt
       ++ ". Fill the surrounding empty white space to expand the scene naturally."]])
  /\ (prompt = EmptyString ->
      map instructions (requested (expandImage buf prompt))
      = [["Fill the surrounding empty white space to expand the scene naturally, matching the existing style and context seamlessly."]]).
Proof.
  split.
  - intros Hne. rewrite expandImage_instruction.
    destruct prompt; [congruence|reflexivity].
  - intros ->. apply expandImage_instruction.
Qed.

End Requests.

(** A data URL of a GIF keeps its prefix: C8 fails as stated. *)
Lemma gif_prefix_kept :
  map Gemini.imagePayloads
      (Gemini.requested
         (@Gemini.expandImage Sample.silent "data:image/gif;base64,R0lGODlh" EmptyString))
  = [["data:image/gif;base64,R0lGODlh"%string]]
  /\ map Gemini.imagePayloads
         (Gemini.requested
            (@Gemini.expandImage Sample.silent "data:image/gif;base64,R0lGODlh" EmptyString))
     <> [["R0lGODlh"%string]].
Proof. split; [reflexivity | discriminate]. Qed.

Lemma listed_prefix_stripped_witness :
  map Gemini.imagePayloads
      (Gemini.requested
         (@Gemini.expandImage Sample.silent "data:image/jpeg;base64,AAAA" "a sunset"))
  = [["AAAA"%string]]
  /\ map Gemini.imagePayloads
         (Gemini.requested (@Gemini.expandImage Sample.silent "AAAA" "a sunset"))
     = [["AAAA"%string]].
Proof.
  split.
  - apply (proj1 (@listed_prefix_stripped Sample.silent
                    "data:image/jpeg;base64,AAAA" "a sunset") "jpeg"%string).
    + simpl. auto.
    + reflexivity.
  - apply (proj2 (@listed_prefix_stripped Sample.silent "AAAA" "a sunset")).
    intros alt payload Hin. simpl in Hin.
    destruct Hin as [<-|[<-|[<-|[<-|[]]]]]; discriminate.
Defined.

Lemma instruction_of_prompt_witness :
  map Gemini.instructions
      (Gemini.requested (@Gemini.expandImage Sample.silent "AAAA" "a sunset"))
  = [["a sunset. Fill the surrounding empty white space to expand the scene naturally."%string]]
  /\ map Gemini.instructions
         (Gemini.requested (@Gemini.expandImage Sample.silent "AAAA" EmptyString))
     = [["Fill the surrounding empty white space to expand the scene naturally, matching the existing style and context seamlessly."%string]].
Proof.
  split.
  - apply (proj1 (@instruction_of_prompt Sample.silent "AAAA" "a sunset")).
    discriminate.
  - apply (proj2 (@instruction_of_prompt Sample.silent "AAAA" EmptyString)).
    reflexivity.
Defined.

(** ** The requester: scanning the response *)

Section Scan.
Import JS Gemini.
Local Open Scope string_scope.

Lemma truthy_iff (s : string) : truthy s = true <-> s <> EmptyString.
Proof. destruct s; simpl; split; congruence. Qed.


Lemma scanParts_cons (part : Part) (rest : list Part) :
  scanParts (part :: rest)
  = if isImagePart part
    then match inlineData part with
         | Some blob =>
             match data blob with
             | Some payload => Some (dataUrlOf (mimeType blob) payload)
             | None => None
             end
         | None => None
         end
    else scanParts rest.
Proof.
  unfold isImagePart, truthy_opt. simpl.
  destruct (inlineData part) as [blob|]; [|reflexivity].
  destruct (data blob) as [payload|]; [|reflexivity].
  destruct (truthy payload); reflexivity.
Qed.

Lemma scanParts_skip (pre rest : list Part) :
  forallb (fun p => negb (isImagePart p)) pre = true ->
  scanParts (pre ++ rest)%list = scanParts rest.
Proof.
  induction pre as [|p pre IH]; intros Hpre.
  - reflexivity.
  - simpl in Hpre. apply andb_prop in Hpre as [Hp Hpre].
    rewrite <- app_comm_cons, scanParts_cons.
    apply negb_true_iff in Hp. rewrite Hp. now apply IH.
Qed.

Lemma scanParts_none (ps : list Part) :
  (forall p, In p ps -> isImagePart p = false) -> scanParts ps = None.
Proof.
  induction ps as [|p ps IH]; intros Hno.
  - reflexivity.
  - rewrite scanParts_cons, (Hno p (or_introl eq_refl)).
    apply IH. intros q Hq. apply Hno. now right.
Qed.

Lemma extractImage_first (response : Response) (first : Candidate)
    (others : list Candidate) (c : Content) (ps : list Part) :
  candidates response = Some (first :: others) ->
  content first = Some c ->
  parts c = Some ps ->
  extractImage response
  = match scanParts ps with
    | Some url => Returns url
    | None => Throws noImageError
    end.
Proof.
  intros Hc Hcontent Hparts. unfold extractImage.
  now rewrite Hc, Hcontent, Hparts.
Qed.

Context {service : GenAI}.

Lemma expandImage_first (buf prompt : string) (first : Candidate)
    (others : list Candidate) (c : Content) (ps : list Part) :
  generateContent (buildRequest buf prompt)
  = Returns (mkResponse (Some (first :: others))) ->
  content first = Some c ->
  parts c = Some ps ->
  answer (expandImage buf prompt)
  = match scanParts ps with
    | Some url => Returns url
    | None => Throws noImageError
    end.
Proof.
  intros Hresp Hcontent Hparts. unfold expandImage. cbn [answer]. rewrite Hresp.
  now apply (extractImage_first _ first others c ps).
Qed.

(** C3, as amended: the parts of the first candidate of the answer are
    scanned in order and the first of them that carries an inline
    image is returned as a data URI with the mime type the part
    reports, or [image/png] when it reports none or an empty one; the
    parts before it, text parts for one, are passed over, and so is
    whatever the later candidates hold. *)
Theorem first_inline_image_returned
    (buf prompt : string) (first : Candidate) (others : list Candidate)
    (c : Content) (pre post : list Part) (part : Part) (blob : Blob)
    (payload : string) :
  generateContent (buildRequest buf prompt)
  = Returns (mkResponse (Some (first :: others))) ->
  content first = Some c ->
  parts c = Some (pre ++ part :: post)%list ->
  forallb (fun p => negb (isImagePart p)) pre = true ->
  inlineData part = Some blob ->
  data blob = Some payload ->
  payload <> EmptyString ->
  (forall mime,
      mimeType blob = Some mime -> mime <> EmptyString ->
      answer (expandImage buf prompt)
      = Returns ("data:" ++ mime ++ ";base64," ++ payload))
  /\ (mimeType blob = None \/ mimeType blob = Some EmptyString ->
      answer (expandImage buf prompt) = Returns ("data:image/png;base64," ++ payload)).
Proof.
  intros Hresp Hcontent Hparts Hpre Hblob Hdata Hne.
  assert (E : answer (expandImage buf prompt)
              = Returns (dataUrlOf (mimeType blob) payload)).
  { rewrite (expandImage_first buf prompt first others c _ Hresp Hcontent Hparts).
    rewrite (scanParts_skip _ _ Hpre). cbn [scanParts].
    rewrite Hblob, Hdata. apply truthy_iff in Hne. now rewrite Hne. }
  split.
  - intros mime Hmime Hm. rewrite E, Hmime. unfold dataUrlOf, or_else.
    apply truthy_iff in Hm. now rewrite Hm.
  - intros [Hmime|Hmime]; rewrite E, Hmime; reflexivity.
Qed.

(** C4, on the code: with no inline image in any part the call ends
    with the no-image error when there is no candidate, and when the
    first candidate has its content and parts; a first candidate
    without content, or a content without parts, makes it end with a
    [TypeError] instead, which is another error. *)
Theorem no_inline_image_outcomes (buf prompt : string) (response : Response) :
  generateContent (buildRequest buf prompt) = Returns response ->
  (forall candidate c ps part,
      In candidate (match candidates response with Some cs => cs | None => [] end) ->
      content candidate = Some c ->
      parts c = Some ps ->
      In part ps ->
      isImagePart part = false) ->
  answer (expandImage buf prompt)
  = match candidates response with
    | Some (first :: _) =>
        match content first with
        | Some c =>
            match parts c with
            | Some _ => Throws noImageError
            | None => Throws noPartsError
            end
        | None => Throws noContentError
        end
    | Some [] | None => Throws noImageError
    end
  /\ noImageError
     = mkError "No image data returned from Gemini. The model may have refused the request or generated only text."
  /\ noContentError <> noImageError
  /\ noPartsError <> noImageError.
Proof.
  intros Hresp Hno. split; [|split; [reflexivity|split; discriminate]].
  unfold expandImage. cbn [answer]. rewrite Hresp. unfold extractImage.
  destruct (candidates response) as [[|first others]|]; try reflexivity.
  destruct (content first) as [c|] eqn:Hc; [|reflexivity].
  destruct (parts c) as [ps|] eqn:Hp; [|reflexivity].
  rewrite scanParts_none; [reflexivity|].
  intros p Hin. apply (Hno first c ps p); simpl; auto.
Qed.


End Scan.

(** The first inline image of the answer is in its second candidate
    and is not returned: C3 fails as stated. *)
Lemma image_in_later_candidate_lost :
  @Gemini.generateContent Scenario.twoCandidates
     (Gemini.buildRequest "data:image/png;base64,QUJD" "a sunset")
  = JS.Returns
      (Gemini.mkResponse
         (Some [Scenario.candidateOf [Gemini.textPart "sorry"];
                Scenario.candidateOf [Gemini.imagePart "image/png" "AAAA"]]))
  /\ Gemini.answer
       (@Gemini.expandImage Scenario.twoCandidates "data:image/png;base64,QUJD"
          "a sunset")
     = JS.Throws Gemini.noImageError
  /\ Gemini.answer
       (@Gemini.expandImage Scenario.twoCandidates "data:image/png;base64,QUJD"
          "a sunset")
     <> JS.Returns "data:image/png;base64,AAAA".
Proof. repeat split. discriminate. Qed.

Lemma first_inline_image_returned_witness :
  Gemini.answer
    (@Gemini.expandImage
       (Sample.answering [Gemini.textPart "here"; Gemini.imagePart "image/png" "AAAA"])
       "data:image/png;base64,QUJD" EmptyString)
  = JS.Returns "data:image/png;base64,AAAA"
  /\ Gemini.answer
       (@Gemini.expandImage Scenario.jpegService "data:image/png;base64,QUJD"
          EmptyString)
     = JS.Returns "data:image/jpeg;base64,AAAA"
  /\ Gemini.answer
       (@Gemini.expandImage
          (Sample.answering
             [Gemini.textPart "here";
              Gemini.mkPart None (Some (Gemini.mkBlob None (Some "AAAA")))])
          "data:image/png;base64,QUJD" EmptyString)
     = JS.Returns "data:image/png;base64,AAAA".
Proof.
  split; [|split].
  - refine (proj1 (@first_inline_image_returned
                     (Sample.answering
                        [Gemini.textPart "here"; Gemini.imagePart "image/png" "AAAA"])
                     "data:image/png;base64,QUJD" EmptyString _ [] _
                     [Gemini.textPart "here"] [] _ _ "AAAA"
                     eq_refl eq_refl eq_refl eq_refl eq_refl eq_refl _)
                  "image/png" eq_refl _); discriminate.
  - refine (proj1 (@first_inline_image_returned Scenario.jpegService
                     "data:image/png;base64,QUJD" EmptyString _ [] _
                     [Gemini.textPart "here"] [] _ _ "AAAA"
                     eq_refl eq_refl eq_refl eq_refl eq_refl eq_refl _)
                  "image/jpeg" eq_refl _); discriminate.
  - refine (proj2 (@first_inline_image_returned
                     (Sample.answering
                        [Gemini.textPart "here";
                         Gemini.mkPart None (Some (Gemini.mkBlob None (Some "AAAA")))])
                     "data:image/png;base64,QUJD" EmptyString _ [] _
                     [Gemini.textPart "here"] [] _ _ "AAAA"
                     eq_refl eq_refl eq_refl eq_refl eq_refl eq_refl _)
                  (or_introl eq_refl)); discriminate.
Defined.

Lemma no_inline_image_outcomes_witness :
  Gemini.answer (@Gemini.expandImage Scenario.blocked "AAAA" EmptyString)
  = JS.Throws (JS.mkError "Cannot read properties of undefined (reading 'parts')")
  /\ Gemini.answer
       (@Gemini.expandImage (Sample.answering [Gemini.textPart "sorry"]) "AAAA"
          EmptyString)
     = JS.Throws (JS.mkError "No image data returned from Gemini. The model may have refused the request or generated only text.")
  /\ Gemini.answer (@Gemini.expandImage Sample.silent "AAAA" EmptyString)
     = JS.Throws (JS.mkError "No image data returned from Gemini. The model may have refused the request or generated only text.").
Proof.
  split; [|split].
  - refine (proj1 (@no_inline_image_outcomes Scenario.blocked "AAAA" EmptyString
                     _ eq_refl _)).
    simpl. intros candidate c ps part [<-|[]] Hc. discriminate.
  - refine (proj1 (@no_inline_image_outcomes
                     (Sample.answering [Gemini.textPart "sorry"]) "AAAA" EmptyString
                     _ eq_refl _)).
    simpl. intros candidate c ps part [<-|[]] [= <-] [= <-] [<-|[]]. reflexivity.
  - refine (proj1 (@no_inline_image_outcomes Sample.silent "AAAA" EmptyString
                     _ eq_refl _)).
    simpl. intros candidate c ps part [].
Defined.


(** ** Numbers: signs and finiteness *)

Section Numbers.
Import JS.
Local Open Scope Z_scope.

Lemma binary_round_aux_sign (m e : Z) (l : location) :
  not_negative (binary_round_aux prec emax false m e l) = true.
Proof.
  unfold binary_round_aux.
  destruct (shr_fexp prec emax m e l) as [mrs' e'].
  destruct (shr_fexp prec emax _ e' loc_Exact) as [mrs'' e''].
  destruct (shr_m mrs''); try reflexivity.
  destruct (e'' <=? emax - prec); reflexivity.
Qed.

Lemma binary_round_sign (m : positive) (e : Z) :
  not_negative (binary_round prec emax false m e) = true.
Proof.
  unfold binary_round.
  destruct (shl_align m e _) as [mz ez]. apply binary_round_aux_sign.
Qed.

Lemma of_Z_sign (z : Z) : 0 <= z -> not_negative (of_Z z) = true.
Proof.
  destruct z as [|p|p]; intros Hz.
  - reflexivity.
  - apply binary_round_sign.
  - lia.
Qed.

Lemma mul_sign (x y : number) :
  not_negative x = true -> not_negative y = true -> not_negative (mul x y) = true.
Proof.
  destruct x as [sx|sx| |sx mx ex], y as [sy|sy| |sy my ey];
    simpl; try reflexivity;
    try (destruct sx; try discriminate); try (destruct sy; try discriminate);
    intros _ _; try reflexivity.
  apply binary_round_aux_sign.
Qed.

Lemma div_sign (x : number) (m : positive) (e : Z) :
  not_negative x = true -> not_negative (div x (S754_finite false m e)) = true.
Proof.
  destruct x as [sx|sx| |sx mx ex]; simpl; try reflexivity;
    destruct sx; try discriminate; intros _; try reflexivity.
  destruct (SFdiv_core_binary prec emax (Z.pos mx) ex (Z.pos m) e) as [[mz ez] lz].
  apply binary_round_aux_sign.
Qed.

Lemma add_sign (x y : number) :
  not_negative x = true -> not_negative y = true -> not_negative (add x y) = true.
Proof.
  destruct x as [sx|sx| |sx mx ex], y as [sy|sy| |sy my ey];
    simpl; try reflexivity;
    try (destruct sx; try discriminate); try (destruct sy; try discriminate);
    intros _ _; try reflexivity.
  apply binary_round_sign.
Qed.

Lemma Math_floor_sign (x : number) :
  not_negative x = true -> not_negative (Math_floor x) = true.
Proof.
  destruct x as [sx|sx| |sx mx ex]; simpl; try (intros H; exact H).
  destruct sx; [discriminate|]. intros _.
  destruct (0 <=? ex); [reflexivity|].
  simpl cond_Zopp.
  destruct (Z.shiftr (Z.pos mx) (- ex) =? 0) eqn:E; [reflexivity|].
  apply of_Z_sign, Z.shiftr_nonneg. lia.
Qed.

Lemma ge0_sign (x : number) : ge0 x = true -> not_negative x = true.
Proof.
  destruct x as [sx|sx| |sx mx ex]; try reflexivity; destruct sx; try reflexivity;
    discriminate.
Qed.

Lemma truncZ_sign (x : number) (z : Z) :
  not_negative x = true -> truncZ x = Some z -> 0 <= z.
Proof.
  destruct x as [sx|sx| |sx mx ex]; simpl; try discriminate.
  - intros _ [= <-]. lia.
  - destruct sx; [discriminate|]. intros _ [= <-].
    simpl. apply Z.shiftl_nonneg. lia.
Qed.

Lemma truncZ_add (x y : number) (z : Z) :
  truncZ (add x y) = Some z ->
  (exists a, truncZ x = Some a) /\ (exists b, truncZ y = Some b).
Proof.
  destruct x as [sx|sx| |sx mx ex], y as [sy|sy| |sy my ey];
    simpl; try discriminate; try (destruct sx, sy; discriminate);
    intros _; split; eexists; reflexivity.
Qed.

Lemma hundred : of_Z 100 = S754_finite false 7036874417766400 (-46).
Proof. vm_compute. reflexivity. Qed.

Lemma pad_sign (dim pct : number) :
  not_negative dim = true -> ge0 pct = true ->
  not_negative (CanvasEditor.pad dim pct) = true.
Proof.
  intros Hd Hp. unfold CanvasEditor.pad.
  apply Math_floor_sign, mul_sign; [exact Hd|].
  rewrite hundred. apply div_sign, ge0_sign, Hp.
Qed.

End Numbers.

(** ** Pixels *)

Section Compositing.
Import Pixel.
Local Open Scope Z_scope.
Context {blender : Blender}.

Lemma source_over_opaque_source (src dst : RGBA) :
  alpha src = 255 -> source_over src dst = src.
Proof. intros H. unfold source_over. now rewrite H. Qed.

Lemma source_over_clear_source (src dst : RGBA) :
  alpha src = 0 -> source_over src dst = dst.
Proof. intros H. unfold source_over. now rewrite H. Qed.

Lemma source_over_partial (src dst : RGBA) :
  alpha src <> 255 -> alpha src <> 0 -> source_over src dst = blend src dst.
Proof.
  intros H1 H0. unfold source_over.
  destruct (Z.eqb_spec (alpha src) 255); [contradiction|].
  destruct (Z.eqb_spec (alpha src) 0); [contradiction|reflexivity].
Qed.

End Compositing.

(** ** The canvas after a redraw *)

Section Redraw.
Import JS Pixel CanvasEditor.
Local Open Scope Z_scope.
Context {blender : Blender}.

Variable image : Img.Image.
Variable s : ExpansionSettings.

Lemma composite_width (ctx : Canvas.Canvas) :
  Canvas.width (composite image s ctx) = Canvas.dimension 300 (newWidth image s).
Proof.
  unfold composite, Canvas.drawImage, Canvas.fillRect.
  destruct (truncZ (padLeft image s)), (truncZ (padTop image s)),
    (truncZ (of_Z 0)), (truncZ (newWidth image s)), (truncZ (newHeight image s));
    reflexivity.
Qed.

Lemma composite_height (ctx : Canvas.Canvas) :
  Canvas.height (composite image s ctx) = Canvas.dimension 150 (newHeight image s).
Proof.
  unfold composite, Canvas.drawImage, Canvas.fillRect.
  destruct (truncZ (padLeft image s)), (truncZ (padTop image s)),
    (truncZ (of_Z 0)), (truncZ (newWidth image s)), (truncZ (newHeight image s));
    reflexivity.
Qed.

(** The canvas a redraw leaves does not depend on the canvas it
    started from, its context mode apart. *)
Lemma composite_fresh (c1 c2 : Canvas.Canvas) :
  Canvas.mode c1 = Canvas.mode c2 -> composite image s c1 = composite image s c2.
Proof.
  intros Hm.
  unfold composite, Canvas.drawImage, Canvas.fillRect.
  destruct (truncZ (padLeft image s)), (truncZ (padTop image s)),
    (truncZ (of_Z 0)), (truncZ (newWidth image s)), (truncZ (newHeight image s));
    unfold Canvas.set_fillStyle, Canvas.set_height, Canvas.set_width; simpl;
    rewrite Hm; reflexivity.
Qed.

Lemma composite_mode (ctx : Canvas.Canvas) :
  Canvas.mode (composite image s ctx) = Canvas.mode ctx.
Proof.
  unfold composite, Canvas.drawImage, Canvas.fillRect.
  destruct (truncZ (padLeft image s)), (truncZ (padTop image s)),
    (truncZ (of_Z 0)), (truncZ (newWidth image s)), (truncZ (newHeight image s));
    reflexivity.
Qed.

Lemma composite_bitmap (ctx : Canvas.Canvas) (pl pt tw th x y : Z) :
  truncZ (padLeft image s) = Some pl ->
  truncZ (padTop image s) = Some pt ->
  truncZ (newWidth image s) = Some tw ->
  truncZ (newHeight image s) = Some th ->
  Canvas.bitmap (composite image s ctx) x y
  = let under :=
      if Canvas.inSpan 0 tw x && Canvas.inSpan 0 th y then white
      else transparentBlack in
    if (pl <=? x) && (x <? pl + Z.of_N (Img.width image))
       && (pt <=? y) && (y <? pt + Z.of_N (Img.height image))
    then source_over (Img.pixelAt image (x - pl) (y - pt)) under
    else under.
Proof.
  intros Hl Ht Hw Hh.
  unfold composite, Canvas.drawImage, Canvas.fillRect.
  rewrite Hl, Ht, Hw, Hh. cbn [truncZ of_Z binary_normalize].
  cbn [Canvas.bitmap Canvas.fillStyle Canvas.set_fillStyle Canvas.set_height
       Canvas.set_width Canvas.width Canvas.height].
  rewrite (source_over_opaque_source white transparentBlack eq_refl).
  reflexivity.
Qed.

Lemma dimension_range (d : Z) (v : number) :
  0 <= d -> 0 <= Canvas.dimension d v.
Proof.
  intros Hd. unfold Canvas.dimension, ToUint32.
  destruct (truncZ v) as [z|].
  - destruct (z mod 2 ^ 32 <=? 2147483647); [|exact Hd].
    apply Z.mod_pos_bound. reflexivity.
  - simpl. lia.
Qed.

Lemma dimension_covered (d : Z) (v : number) (x : Z) :
  d <= 2147483647 ->
  not_negative v = true ->
  0 <= x < Canvas.dimension d v ->
  exists t, truncZ v = Some t /\ x < t.
Proof.
  intros Hd Hv Hx. unfold Canvas.dimension, ToUint32 in Hx.
  destruct (truncZ v) as [z|] eqn:E.
  - exists z. split; [reflexivity|].
    pose proof (truncZ_sign v z Hv E) as Hz.
    pose proof (Z.mod_le z (2 ^ 32) Hz eq_refl) as Hle.
    destruct (z mod 2 ^ 32 <=? 2147483647) eqn:B; [lia|].
    apply Z.leb_gt in B. lia.
  - simpl in Hx. lia.
Qed.

Hypothesis top_ge0 : ge0 (top s) = true.
Hypothesis bottom_ge0 : ge0 (bottom s) = true.
Hypothesis left_ge0 : ge0 (left s) = true.
Hypothesis right_ge0 : ge0 (right s) = true.

Lemma w_sign : not_negative (w image) = true.
Proof. apply of_Z_sign, N2Z.is_nonneg. Qed.

Lemma h_sign : not_negative (h image) = true.
Proof. apply of_Z_sign, N2Z.is_nonneg. Qed.

Lemma newWidth_sign : not_negative (newWidth image s) = true.
Proof.
  unfold newWidth, padLeft, padRight.
  repeat apply add_sign; try apply pad_sign; auto using w_sign.
Qed.

Lemma newHeight_sign : not_negative (newHeight image s) = true.
Proof.
  unfold newHeight, padTop, padBottom.
  repeat apply add_sign; try apply pad_sign; auto using h_sign.
Qed.

(** Every pixel of the canvas is inside the rectangle that [fillRect]
    paints, and the offset of the image is finite. *)
Lemma canvas_pixel_filled (ctx : Canvas.Canvas) (x y : Z) :
  0 <= x < Canvas.width (composite image s ctx) ->
  0 <= y < Canvas.height (composite image s ctx) ->
  exists pl pt tw th,
    truncZ (padLeft image s) = Some pl /\ truncZ (padTop image s) = Some pt
    /\ truncZ (newWidth image s) = Some tw /\ truncZ (newHeight image s) = Some th
    /\ Canvas.inSpan 0 tw x && Canvas.inSpan 0 th y = true.
Proof.
  rewrite composite_width, composite_height. intros Hx Hy.
  destruct (dimension_covered 300 _ x ltac:(lia) newWidth_sign Hx) as (tw & Ew & Hxw).
  destruct (dimension_covered 150 _ y ltac:(lia) newHeight_sign Hy) as (th & Eh & Hyh).
  destruct (truncZ_add _ _ _ Ew) as [(a & Ea) _].
  destruct (truncZ_add _ _ _ Ea) as [_ (pl & El)].
  destruct (truncZ_add _ _ _ Eh) as [(b & Eb) _].
  destruct (truncZ_add _ _ _ Eb) as [_ (pt & Et)].
  exists pl, pt, tw, th. repeat split; auto.
  unfold Canvas.inSpan. apply andb_true_intro; split; apply andb_true_intro; split.
  - apply Z.leb_le. lia.
  - apply Z.ltb_lt. lia.
  - apply Z.leb_le. lia.
  - apply Z.ltb_lt. lia.
Qed.

End Redraw.

(** ** The compositor *)

Section Compositor.
Import JS Pixel CanvasEditor.
Local Open Scope Z_scope.
Context {blender : Blender}.

(** What a pixel of the canvas holds after a redraw. *)
Lemma composite_pixel_value (image : Img.Image) (s : ExpansionSettings)
    (ctx : Canvas.Canvas) (x y : Z) :
  ge0 (top s) = true -> ge0 (bottom s) = true ->
  ge0 (left s) = true -> ge0 (right s) = true ->
  0 <= x < Canvas.width (composite image s ctx) ->
  0 <= y < Canvas.height (composite image s ctx) ->
  exists pl pt,
    truncZ (padLeft image s) = Some pl /\ truncZ (padTop image s) = Some pt
    /\ Canvas.bitmap (composite image s ctx) x y
       = if (pl <=? x) && (x <? pl + Z.of_N (Img.width image))
            && (pt <=? y) && (y <? pt + Z.of_N (Img.height image))
         then source_over (Img.pixelAt image (x - pl) (y - pt)) white
         else white.
Proof.
  intros Ht Hb Hl Hr Hx Hy.
  destruct (canvas_pixel_filled image s Ht Hb Hl Hr ctx x y Hx Hy)
    as (pl & pt & tw & th & El & Et & Ew & Eh & Hspan).
  exists pl, pt. repeat split; auto.
  rewrite (composite_bitmap image s ctx pl pt tw th x y El Et Ew Eh).
  cbv zeta. rewrite Hspan. reflexivity.
Qed.

(** The same by the alpha of the source pixel, with white written
    out. *)
Lemma composite_pixel_cases (image : Img.Image) (s : ExpansionSettings)
    (ctx : Canvas.Canvas) (pl pt x y : Z) :
  ge0 (top s) = true -> ge0 (bottom s) = true ->
  ge0 (left s) = true -> ge0 (right s) = true ->
  truncZ (padLeft image s) = Some pl ->
  truncZ (padTop image s) = Some pt ->
  0 <= x < Canvas.width (composite image s ctx) ->
  0 <= y < Canvas.height (composite image s ctx) ->
  let inside := pl <= x < pl + Z.of_N (Img.width image)
                /\ pt <= y < pt + Z.of_N (Img.height image) in
  let src := Img.pixelAt image (x - pl) (y - pt) in
  let out := Canvas.bitmap (composite image s ctx) x y in
  (~ inside -> out = mkRGBA 255 255 255 255)
  /\ (inside ->
      (alpha src = 255 -> out = src)
      /\ (alpha src = 0 -> out = mkRGBA 255 255 255 255)
      /\ (alpha src <> 255 -> alpha src <> 0 ->
          out = blend src (mkRGBA 255 255 255 255))).
Proof.
  intros Ht Hb Hl Hr El Et Hx Hy.
  destruct (composite_pixel_value image s ctx x y Ht Hb Hl Hr Hx Hy)
    as (pl' & pt' & El' & Et' & E).
  rewrite El in El'. rewrite Et in Et'.
  injection El' as <-. injection Et' as <-.
  cbv zeta. rewrite E.
  destruct ((pl <=? x) && (x <? pl + Z.of_N (Img.width image))
            && (pt <=? y) && (y <? pt + Z.of_N (Img.height image)))%bool eqn:B.
  - split; [intros Hout; exfalso; apply Hout|].
    + repeat (apply andb_prop in B as [B ?]).
      rewrite Z.leb_le in *. rewrite Z.ltb_lt in *. lia.
    + intros _. split; [|split].
      * intros Ha. now apply source_over_opaque_source.
      * intros Ha. now apply source_over_clear_source.
      * intros H1 H0. now apply source_over_partial.
  - split; [reflexivity|].
    intros [[H1 H2] [H3 H4]]. exfalso.
    apply Z.leb_le in H1, H3. apply Z.ltb_lt in H2, H4.
    rewrite H1, H2, H3, H4 in B. discriminate.
Qed.

(** C2, as amended: after a redraw with settings that are not negative
    and at which the left and top pads the code computes are the exact
    [floor(w * left / 100)] and [floor(h * top / 100)], every pixel of
    the canvas outside the rectangle of the image is opaque white, and
    every pixel inside it is the source pixel drawn source-over on
    white at its own size: the source pixel itself where that is
    opaque, white where it is fully transparent, and what the browser
    blends of the two anywhere between. *)
Theorem composite_pixels (image : Img.Image) (s : ExpansionSettings)
    (ctx : Canvas.Canvas) (pl pt x y : Z) :
  ge0 (top s) = true -> ge0 (bottom s) = true ->
  ge0 (left s) = true -> ge0 (right s) = true ->
  Spec.padOf (Z.of_N (Img.width image)) (left s) = Some pl ->
  Spec.padOf (Z.of_N (Img.height image)) (top s) = Some pt ->
  truncZ (padLeft image s) = Some pl ->
  truncZ (padTop image s) = Some pt ->
  0 <= x < Canvas.width (composite image s ctx) ->
  0 <= y < Canvas.height (composite image s ctx) ->
  let inside := pl <= x < pl + Z.of_N (Img.width image)
                /\ pt <= y < pt + Z.of_N (Img.height image) in
  let src := Img.pixelAt image (x - pl) (y - pt) in
  let out := Canvas.bitmap (composite image s ctx) x y in
  (~ inside -> out = mkRGBA 255 255 255 255)
  /\ (inside ->
      (alpha src = 255 -> out = src)
      /\ (alpha src = 0 -> out = mkRGBA 255 255 255 255)
      /\ (alpha src <> 255 -> alpha src <> 0 ->
          out = blend src (mkRGBA 255 255 255 255))).
Proof.
  intros Ht Hb Hl Hr _ _ El Et Hx Hy.
  now apply composite_pixel_cases.
Qed.

(** C1 at a width of 90 and 70 percent on the left: the product
    [90 * (70 / 100)] is rounded to the number just below 63, the pad
    is 62 and the canvas is 152 wide, where the exact 70 percent of 90
    is 63 and gives 153. *)
Theorem pad_below_exact_at_90_70 (ht : N) (px : Z -> Z -> RGBA) (p : string)
    (ctx : Canvas.Canvas) :
  truncZ (padLeft (Img.mkImage 90 ht px) (Sample.settingsOf 0 0 70 0 p)) = Some 62
  /\ Canvas.width (composite (Img.mkImage 90 ht px) (Sample.settingsOf 0 0 70 0 p) ctx)
     = 152
  /\ 90 * 70 / 100 = 63
  /\ 90 + 90 * 70 / 100 + 90 * 0 / 100 = 153.
Proof.
  split; [|split; [|split]].
  - vm_compute. reflexivity.
  - rewrite composite_width. vm_compute. reflexivity.
  - reflexivity.
  - reflexivity.
Qed.

(** The scenario of the specification: a 100 by 200 image with 50
    percent on the left gives a 150 by 200 canvas with the image at
    (50, 0). *)
Example scenario_100_by_200 (px : Z -> Z -> RGBA) (ctx : Canvas.Canvas) :
  let image := Img.mkImage 100 200 px in
  let s := Sample.settingsOf 0 0 50 0 EmptyString in
  Canvas.width (composite image s ctx) = 150
  /\ Canvas.height (composite image s ctx) = 200
  /\ truncZ (padLeft image s) = Some 50
  /\ truncZ (padTop image s) = Some 0.
Proof.
  cbv zeta. rewrite composite_width, composite_height.
  repeat split; vm_compute; reflexivity.
Qed.

(** The same width and percentage against the pad as the
    specification words it: 63, where the code has 62. *)
Example exact_pad_at_90_70 :
  Spec.padOf 90 (of_Z 70) = Some 63
  /\ truncZ (pad (of_Z 90) (of_Z 70)) = Some 62
  /\ Spec.padOf 100 (of_Z 50) = Some 50
  /\ truncZ (pad (of_Z 100) (of_Z 50)) = Some 50.
Proof. vm_compute. repeat split. Qed.

End Compositor.

(** A fully transparent source pixel shows as white, and one that is
    partly transparent as a blend with white: C2 fails as stated. *)
Lemma transparent_pixel_not_copied :
  JS.ge0 (top (Sample.settingsOf 0 0 50 0 EmptyString)) = true
  /\ JS.ge0 (bottom (Sample.settingsOf 0 0 50 0 EmptyString)) = true
  /\ JS.ge0 (left (Sample.settingsOf 0 0 50 0 EmptyString)) = true
  /\ JS.ge0 (right (Sample.settingsOf 0 0 50 0 EmptyString)) = true
  /\ JS.truncZ (CanvasEditor.padLeft Scenario.patchwork
                  (Sample.settingsOf 0 0 50 0 EmptyString)) = Some 1%Z
  /\ JS.truncZ (CanvasEditor.padTop Scenario.patchwork
                  (Sample.settingsOf 0 0 50 0 EmptyString)) = Some 0%Z
  /\ (3 * 50 / 100 = 1)%Z
  /\ Canvas.width (@CanvasEditor.composite Sample.rounding Scenario.patchwork
                     (Sample.settingsOf 0 0 50 0 EmptyString) Canvas.blank) = 4%Z
  /\ Canvas.height (@CanvasEditor.composite Sample.rounding Scenario.patchwork
                      (Sample.settingsOf 0 0 50 0 EmptyString) Canvas.blank) = 1%Z
  /\ Img.pixelAt Scenario.patchwork (2 - 1) (0 - 0) = Pixel.mkRGBA 0 0 0 0
  /\ Canvas.bitmap (@CanvasEditor.composite Sample.rounding Scenario.patchwork
                      (Sample.settingsOf 0 0 50 0 EmptyString) Canvas.blank) 2 0
     = Pixel.mkRGBA 255 255 255 255
  /\ Canvas.bitmap (@CanvasEditor.composite Sample.rounding Scenario.patchwork
                      (Sample.settingsOf 0 0 50 0 EmptyString) Canvas.blank) 2 0
     <> Img.pixelAt Scenario.patchwork (2 - 1) (0 - 0)
  /\ Canvas.bitmap (@CanvasEditor.composite Sample.rounding Scenario.patchwork
                      (Sample.settingsOf 0 0 50 0 EmptyString) Canvas.blank) 3 0
     <> Img.pixelAt Scenario.patchwork (3 - 1) (0 - 0)
  /\ Canvas.bitmap (@CanvasEditor.composite Sample.flooring Scenario.patchwork
                      (Sample.settingsOf 0 0 50 0 EmptyString) Canvas.blank) 3 0
     <> Img.pixelAt Scenario.patchwork (3 - 1) (0 - 0).
Proof.
  repeat split; try (vm_compute; reflexivity); vm_compute; discriminate.
Qed.

Lemma composite_pixels_witness :
  let drawn := @CanvasEditor.composite Sample.rounding Scenario.patchwork
                 (Sample.settingsOf 0 0 50 0 EmptyString) Canvas.blank in
  Canvas.bitmap drawn 0 0 = Pixel.mkRGBA 255 255 255 255
  /\ Canvas.bitmap drawn 1 0 = Pixel.mkRGBA 0 0 0 255
  /\ Canvas.bitmap drawn 2 0 = Pixel.mkRGBA 255 255 255 255
  /\ Canvas.bitmap drawn 3 0
     = @Pixel.blend Sample.rounding (Pixel.mkRGBA 200 100 50 100)
         (Pixel.mkRGBA 255 255 255 255).
Proof.
  cbv zeta.
  assert (Hx : forall x : Z,
             (0 <= x < 4)%Z ->
             (0 <= x < Canvas.width
                        (@CanvasEditor.composite Sample.rounding Scenario.patchwork
                           (Sample.settingsOf 0 0 50 0 EmptyString) Canvas.blank))%Z).
  { intros x Hx. rewrite composite_width. exact Hx. }
  assert (Hy : (0 <= 0 < Canvas.height
                          (@CanvasEditor.composite Sample.rounding Scenario.patchwork
                             (Sample.settingsOf 0 0 50 0 EmptyString) Canvas.blank))%Z).
  { rewrite composite_height. vm_compute. split; [discriminate|reflexivity]. }
  pose proof (fun x H =>
                @composite_pixels Sample.rounding Scenario.patchwork
                  (Sample.settingsOf 0 0 50 0 EmptyString) Canvas.blank 1%Z 0%Z x 0%Z
                  eq_refl eq_refl eq_refl eq_refl eq_refl eq_refl eq_refl eq_refl
                  (Hx x H) Hy) as P.
  cbv zeta in P.
  split; [|split; [|split]].
  - apply (proj1 (P 0%Z ltac:(lia))). lia.
  - destruct (proj2 (P 1%Z ltac:(lia)) ltac:(simpl; lia)) as (Hop & _ & _).
    apply Hop. reflexivity.
  - destruct (proj2 (P 2%Z ltac:(lia)) ltac:(simpl; lia)) as (_ & Hclear & _).
    apply Hclear. reflexivity.
  - destruct (proj2 (P 3%Z ltac:(lia)) ltac:(simpl; lia)) as (_ & _ & Hpart).
    apply Hpart; vm_compute; discriminate.
Defined.

(** ** The editor: redraws and the exported buffer *)

Section Editor.
Import JS Pixel CanvasEditor.
Context {blender : Blender} {encoder : Canvas.PngEncoder}.

Lemma redraw_mounted (image : Img.Image) (s : ExpansionSettings) (c : Canvas.Canvas) :
  Canvas.mode c <> Canvas.BoundOther ->
  redraw s (mkEditor (Some image) (Some c))
  = mkEditor (Some image)
             (Some (composite image s
                      (Canvas.mkCanvas (Canvas.width c) (Canvas.height c)
                         (Canvas.bitmap c) Canvas.Bound2D (Canvas.fillStyle c)))).
Proof.
  intros Hm. unfold redraw, Canvas.getContext2d. simpl.
  destruct (Canvas.mode c); [reflexivity|reflexivity|congruence].
Qed.

(** C9: redrawing the same image with the same settings gives the same
    canvas whatever the canvas held before, a second redraw changes
    nothing, and the exported buffers are the same text. *)
Theorem redraw_deterministic (image : Img.Image) (s : ExpansionSettings)
    (c1 c2 : Canvas.Canvas) :
  Canvas.mode c1 <> Canvas.BoundOther ->
  Canvas.mode c2 <> Canvas.BoundOther ->
  redraw s (mkEditor (Some image) (Some c1))
  = redraw s (mkEditor (Some image) (Some c2))
  /\ redraw s (redraw s (mkEditor (Some image) (Some c1)))
     = redraw s (mkEditor (Some image) (Some c1))
  /\ getCanvasDataUrl (redraw s (mkEditor (Some image) (Some c1)))
     = getCanvasDataUrl (redraw s (mkEditor (Some image) (Some c2))).
Proof.
  intros H1 H2.
  assert (E : redraw s (mkEditor (Some image) (Some c1))
              = redraw s (mkEditor (Some image) (Some c2))).
  { rewrite !redraw_mounted by assumption.
    apply (f_equal (fun c => mkEditor (Some image) (Some c))).
    now apply composite_fresh. }
  split; [exact E|]. split; [|now rewrite E].
  rewrite (redraw_mounted image s c1 H1).
  rewrite redraw_mounted.
  - apply (f_equal (fun c => mkEditor (Some image) (Some c))).
    apply composite_fresh. reflexivity.
  - rewrite composite_mode. simpl. discriminate.
Qed.

(** C5, as amended: while the image has not been decoded the redraw
    leaves the editor as it is, and the export does not fail: it
    returns the encoding of what the canvas holds, or the empty text
    when no canvas is mounted. *)
Theorem export_before_decode (s : ExpansionSettings) (ed : Editor) :
  imageObj ed = None ->
  redraw s ed = ed
  /\ getCanvasDataUrl ed
     = Returns match canvasRef ed with
               | Some canvas => Canvas.toDataURL canvas
               | None => EmptyString
               end
  /\ forall e, getCanvasDataUrl ed <> Throws e.
Proof.
  intros Hnone. split; [|split].
  - unfold redraw. now rewrite Hnone.
  - unfold getCanvasDataUrl. destruct (canvasRef ed); reflexivity.
  - intros e. unfold getCanvasDataUrl. destruct (canvasRef ed); discriminate.
Qed.

End Editor.

(** With the image not yet decoded the export returns a buffer: C5
    fails as stated. *)
Lemma export_before_decode_returns :
  CanvasEditor.imageObj (Sample.mounted None) = None
  /\ (exists url,
         @CanvasEditor.getCanvasDataUrl Sample.tally
           (@CanvasEditor.redraw Sample.rounding
              (Sample.settingsOf 0 0 0 50 EmptyString) (Sample.mounted None))
         = JS.Returns url)
  /\ forall e,
      @CanvasEditor.getCanvasDataUrl Sample.tally
        (@CanvasEditor.redraw Sample.rounding
           (Sample.settingsOf 0 0 0 50 EmptyString) (Sample.mounted None))
      <> JS.Throws e.
Proof.
  split; [reflexivity|]. split.
  - eexists. unfold CanvasEditor.getCanvasDataUrl. cbn [CanvasEditor.redraw
      CanvasEditor.imageObj CanvasEditor.canvasRef Sample.mounted]. reflexivity.
  - intros e. unfold CanvasEditor.getCanvasDataUrl. cbn [CanvasEditor.redraw
      CanvasEditor.imageObj CanvasEditor.canvasRef Sample.mounted]. discriminate.
Qed.

Lemma export_before_decode_witness :
  @CanvasEditor.redraw Sample.rounding (Sample.settingsOf 0 0 0 50 EmptyString)
    (Sample.mounted None)
  = Sample.mounted None
  /\ @CanvasEditor.getCanvasDataUrl Sample.tally (Sample.mounted None)
     = JS.Returns (@Canvas.toDataURL Sample.tally Canvas.blank).
Proof.
  destruct (@export_before_decode Sample.rounding Sample.tally
              (Sample.settingsOf 0 0 0 50 EmptyString) (Sample.mounted None) eq_refl)
    as (Hredraw & Hurl & _).
  split; [exact Hredraw | exact Hurl].
Defined.

Lemma redraw_deterministic_witness :
  @CanvasEditor.redraw Sample.rounding (Sample.settingsOf 0 0 0 50 EmptyString)
    (Sample.mounted (Some (Sample.plain 2 2 Pixel.black)))
  = @CanvasEditor.redraw Sample.rounding (Sample.settingsOf 0 0 0 50 EmptyString)
      (@CanvasEditor.redraw Sample.rounding (Sample.settingsOf 10 20 30 40 EmptyString)
         (Sample.mounted (Some (Sample.plain 2 2 Pixel.black)))).
Proof.
  assert (E : @CanvasEditor.redraw Sample.rounding
                (Sample.settingsOf 10 20 30 40 EmptyString)
                (Sample.mounted (Some (Sample.plain 2 2 Pixel.black)))
              = CanvasEditor.mkEditor (Some (Sample.plain 2 2 Pixel.black))
                  (Some (@CanvasEditor.composite Sample.rounding
                           (Sample.plain 2 2 Pixel.black)
                           (Sample.settingsOf 10 20 30 40 EmptyString)
                           (Canvas.mkCanvas 300 150 (fun _ _ => Pixel.transparentBlack)
                              Canvas.Bound2D Pixel.black)))) by reflexivity.
  rewrite E.
  assert (H2 : Canvas.mode
                 (@CanvasEditor.composite Sample.rounding (Sample.plain 2 2 Pixel.black)
                    (Sample.settingsOf 10 20 30 40 EmptyString)
                    (Canvas.mkCanvas 300 150 (fun _ _ => Pixel.transparentBlack)
                       Canvas.Bound2D Pixel.black))
               <> Canvas.BoundOther).
  { rewrite composite_mode. discriminate. }
  exact (proj1 (@redraw_deterministic Sample.rounding Sample.tally
                  (Sample.plain 2 2 Pixel.black)
                  (Sample.settingsOf 0 0 0 50 EmptyString) Canvas.blank _
                  ltac:(discriminate) H2)).
Defined.

(** ** The guard of handleGenerate *)

Section Guard.
Import JS App.
Context {service : Gemini.GenAI} {encoder : Canvas.PngEncoder}.


End Guard.



(** With some expansion asked for, the same handler sends one request
    and keeps the image the service returns. *)
Example generate_with_expansion :
  let s := Sample.settingsOf 0 0 0 50 "a sunset" in
  let ed := @CanvasEditor.redraw Sample.rounding s
              (Sample.mounted (Some (Sample.plain 2 2 Pixel.black))) in
  let run := @App.handleGenerate
               (Sample.answering [Gemini.textPart "here";
                                  Gemini.imagePart "image/png" "AAAA"])
               Sample.tally (Sample.editing s (Some ed)) in
  map Gemini.imagePayloads (App.sent run) = [["wwwhhoooooo"]]
  /\ App.appState (App.final run) = COMPLETE
  /\ App.generatedImage (App.final run) = Some "data:image/png;base64,AAAA".
Proof. vm_compute. repeat split. Qed.

(** Without any image in the answer the handler ends in the error
    state with the message of the error. *)
Example generate_without_image :
  let s := Sample.settingsOf 0 0 0 50 EmptyString in
  let ed := @CanvasEditor.redraw Sample.rounding s
              (Sample.mounted (Some (Sample.plain 2 2 Pixel.black))) in
  let run := @App.handleGenerate (Sample.answering [Gemini.textPart "sorry"])
               Sample.tally (Sample.editing s (Some ed)) in
  App.appState (App.final run) = ERROR
  /\ App.errorMsg (App.final run) = Some (JS.message Gemini.noImageError)
  /\ App.generatedImage (App.final run) = None.
Proof. vm_compute. repeat split. Qed.

(** Where the pad of a slider value (0, 10, ..., 100) differs from the
    exact floor of the percentage, for the widths from 1 to 1000: only
    at 70 percent, and there the pad is one less. *)
Example slider_pads_to_1000 :
  let pad_of (wd pct : Z) := JS.truncZ (CanvasEditor.pad (JS.of_Z wd) (JS.of_Z pct)) in
  let sliders := map (fun n => Z.of_nat n * 10)%Z (seq 0 11) in
  let widths := map Z.of_nat (seq 1 1000) in
  map fst
      (filter (fun wp => match pad_of (fst wp) (snd wp) with
                         | Some z => negb (z =? fst wp * snd wp / 100)%Z
                         | None => true
                         end)
              (list_prod widths sliders))
  = [90; 170; 180; 330; 340; 350; 360; 650; 660; 670; 680; 690; 700; 710; 720; 730]%Z
  /\ forallb (fun wp => match pad_of (fst wp) (snd wp) with
                        | Some z => ((z =? fst wp * snd wp / 100)
                                     || ((snd wp =? 70) && (z + 1 =? fst wp * snd wp / 100)))%Z
                        | None => false
                        end)
             (list_prod widths sliders) = true
  /\ pad_of 1400%Z 70%Z = Some 979%Z.
Proof. vm_compute. repeat split. Qed.

(* ================================================================= *)
(** * More of the code *)

(** ** The requester: the shape of what it returns *)

Section Returned.
Import JS Gemini.

Lemma or_else_truthy (a : option string) (b : string) :
  b <> EmptyString -> or_else a b <> EmptyString.
Proof.
  intros Hb. unfold or_else. destruct a as [v|]; [|exact Hb].
  destruct v; simpl; [exact Hb|discriminate].
Qed.

Lemma scanParts_shape (ps : list Part) (url : string) :
  scanParts ps = Some url ->
  exists part blob payload,
    In part ps /\ inlineData part = Some blob /\ data blob = Some payload
    /\ payload <> EmptyString
    /\ url = "data:" ++ or_else (mimeType blob) "image/png" ++ ";base64," ++ payload.
Proof.
  induction ps as [|part rest IH]; simpl; [discriminate|].
  destruct (inlineData part) as [blob|] eqn:Hb.
  - destruct (data blob) as [payload|] eqn:Hd.
    + destruct (truthy payload) eqn:Ht.
      * intros [= <-]. exists part, blob, payload.
        repeat split; auto. now apply truthy_iff.
      * intros H. destruct (IH H) as (p & b & d & Hin & R).
        exists p, b, d. split; [now right|exact R].
    + intros H. destruct (IH H) as (p & b & d & Hin & R).
      exists p, b, d. split; [now right|exact R].
  - intros H. destruct (IH H) as (p & b & d & Hin & R).
    exists p, b, d. split; [now right|exact R].
Qed.

Lemma extractImage_shape (response : Response) (url : string) :
  extractImage response = Returns url ->
  exists first others c ps part blob payload,
    candidates response = Some (first :: others)
    /\ content first = Some c /\ parts c = Some ps /\ In part ps
    /\ inlineData part = Some blob /\ data blob = Some payload
    /\ payload <> EmptyString
    /\ url = "data:" ++ or_else (mimeType blob) "image/png" ++ ";base64," ++ payload.
Proof.
  unfold extractImage.
  destruct (candidates response) as [[|first others]|]; try discriminate.
  destruct (content first) as [c|] eqn:Hc; [|discriminate].
  destruct (parts c) as [ps|] eqn:Hp; [|discriminate].
  destruct (scanParts ps) as [u|] eqn:S; [|discriminate].
  intros [= <-].
  destruct (scanParts_shape _ _ S) as (part & blob & payload & R).
  exists first, others, c, ps, part, blob, payload. repeat split; auto; apply R.
Qed.

Lemma extractImage_later (first : Candidate) (others others' : list Candidate) :
  extractImage (mkResponse (Some (first :: others)))
  = extractImage (mkResponse (Some (first :: others'))).
Proof. reflexivity. Qed.

(** X2: only the first candidate is read: two answers that agree on
    their first candidate give the same outcome, and with the first
    candidate holding parts of which none is an image the call ends
    with the no-image error whatever the later candidates hold. *)
Theorem later_candidates_ignored (s1 s2 : GenAI) (buf prompt : string)
    (first : Candidate) (others1 others2 : list Candidate) :
  @generateContent s1 (buildRequest buf prompt)
  = Returns (mkResponse (Some (first :: others1))) ->
  @generateContent s2 (buildRequest buf prompt)
  = Returns (mkResponse (Some (first :: others2))) ->
  answer (@expandImage s1 buf prompt) = answer (@expandImage s2 buf prompt)
  /\ (forall c ps,
         content first = Some c -> parts c = Some ps ->
         (forall part, In part ps -> isImagePart part = false) ->
         answer (@expandImage s1 buf prompt)
         = Throws (mkError "No image data returned from Gemini. The model may have refused the request or generated only text.")).
Proof.
  intros G1 G2. unfold expandImage. cbn [answer]. rewrite G1, G2.
  split; [apply extractImage_later|].
  intros c ps Hc Hp Hno.
  rewrite (extractImage_first (mkResponse (Some (first :: others1)))
             first others1 c ps eq_refl Hc Hp).
  now rewrite scanParts_none.
Qed.

Context {service : GenAI}.

Lemma expandImage_shape (buf prompt url : string) :
  answer (expandImage buf prompt) = Returns url ->
  exists mime payload,
    url = "data:" ++ mime ++ ";base64," ++ payload
    /\ mime <> EmptyString /\ payload <> EmptyString
    /\ exists response first others c ps part blob,
         generateContent (buildRequest buf prompt) = Returns response
         /\ candidates response = Some (first :: others)
         /\ content first = Some c /\ parts c = Some ps /\ In part ps
         /\ inlineData part = Some blob
         /\ data blob = Some payload
         /\ mime = or_else (mimeType blob) "image/png".
Proof.
  unfold expandImage. cbn [answer].
  destruct (generateContent (buildRequest buf prompt)) as [response|e|] eqn:G;
    try discriminate.
  intros E.
  destruct (extractImage_shape _ _ E)
    as (first & others & c & ps & part & blob & payload
        & Hc & Hcontent & Hparts & Hin & Hb & Hd & Hne & ->).
  exists (or_else (mimeType blob) "image/png"), payload.
  split; [reflexivity|]. split; [apply or_else_truthy; discriminate|].
  split; [exact Hne|].
  exists response, first, others, c, ps, part, blob. repeat split; auto.
Qed.

(** X1: whatever [expandImage] returns is a data URI: [data:], a mime
    type that is not empty, [;base64,] and a payload that is not
    empty, both taken from a part of the first candidate, the mime
    type being [image/png] when the part has none. *)
Theorem returned_image_shape (buf prompt url : string) :
  answer (expandImage buf prompt) = Returns url ->
  exists mime payload,
    url = "data:" ++ mime ++ ";base64," ++ payload
    /\ mime <> EmptyString /\ payload <> EmptyString
    /\ exists response first others c ps part blob,
         generateContent (buildRequest buf prompt) = Returns response
         /\ candidates response = Some (first :: others)
         /\ content first = Some c /\ parts c = Some ps /\ In part ps
         /\ inlineData part = Some blob
         /\ data blob = Some payload
         /\ mime = or_else (mimeType blob) "image/png".
Proof. exact (expandImage_shape buf prompt url). Qed.

End Returned.

(** ** Round trip: a returned image sent again *)

Section RoundTrip.
Import JS Gemini.

(** X3: a returned image sent again: when the part had no mime type,
    an empty one, or [image/] followed by png, jpeg, jpg or webp, the
    prefix that [expandImage] puts before the payload is the prefix
    it removes, and the payload comes back as it was. *)
Theorem returned_image_strips_back (mime : option string) (payload : string) :
  (mime = None \/ mime = Some EmptyString
   \/ exists alt, In alt mimeAlternatives /\ mime = Some ("image/" ++ alt)) ->
  stripDataUrlPrefix (dataUrlOf mime payload) = payload.
Proof.
  intros [->|[->|(alt & Hin & ->)]].
  - reflexivity.
  - reflexivity.
  - unfold dataUrlOf, or_else.
    assert (T : truthy ("image/" ++ alt) = true) by reflexivity.
    rewrite T.
    replace ("data:" ++ ("image/" ++ alt) ++ ";base64," ++ payload)
      with ("data:image/" ++ alt ++ ";base64," ++ payload).
    + now apply stripDataUrlPrefix_listed.
    + reflexivity.
Qed.

End RoundTrip.


(** ** handleGenerate as a whole *)

Section Generate.
Import JS App Handlers.
Context {service : Gemini.GenAI} {encoder : Canvas.PngEncoder}.

Lemma getCanvasDataUrl_returns (handle : CanvasEditor.Editor) :
  CanvasEditor.getCanvasDataUrl handle
  = Returns match CanvasEditor.canvasRef handle with
            | Some canvas => Canvas.toDataURL canvas
            | None => EmptyString
            end.
Proof. unfold CanvasEditor.getCanvasDataUrl. now destruct (CanvasEditor.canvasRef handle). Qed.

(** A run of [handleGenerate], guard by guard and outcome by
    outcome. *)
Lemma handleGenerate_cases (st : State) :
  match canvasRef st with
  | None => handleGenerate st = mkRun st []
  | Some handle =>
      if expansionAsked (settings st)
      then exists url,
          CanvasEditor.getCanvasDataUrl handle = Returns url
          /\ sent (handleGenerate st)
             = [Gemini.buildRequest url (prompt (settings st))]
          /\ final (handleGenerate st)
             = match Gemini.answer (Gemini.expandImage url (prompt (settings st))) with
               | Returns result => succeed result (begin st)
               | Throws err => fail err (begin st)
               | Pending => begin st
               end
      else handleGenerate st
           = mkRun (with_error st (appState st) (Some noExpansionMessage)) []
  end.
Proof.
  unfold handleGenerate, expansionAsked.
  destruct (canvasRef st) as [handle|]; [|reflexivity].
  destruct (isZero (top (settings st)) && isZero (bottom (settings st))
            && isZero (left (settings st)) && isZero (right (settings st)));
    [reflexivity|].
  cbn [negb]. rewrite getCanvasDataUrl_returns.
  eexists. split; [reflexivity|].
  destruct (Gemini.answer (Gemini.expandImage _ _)); split; reflexivity.
Qed.

(** X4: [handleGenerate] sends no request exactly when no editor is
    mounted or all four percentages are zero; it never sends more than
    one, and the one it sends is built from the export of the editor
    and the prompt of the settings. *)
Theorem request_sent_iff (st : State) :
  (sent (handleGenerate st) = []
   <-> canvasRef st = None \/ expansionAsked (settings st) = false)
  /\ (List.length (sent (handleGenerate st)) <= 1)%nat
  /\ forall handle,
      canvasRef st = Some handle ->
      expansionAsked (settings st) = true ->
      exists url,
        CanvasEditor.getCanvasDataUrl handle = Returns url
        /\ sent (handleGenerate st) = [Gemini.buildRequest url (prompt (settings st))].
Proof.
  pose proof (handleGenerate_cases st) as C.
  destruct (canvasRef st) as [handle|] eqn:Href.
  - destruct (expansionAsked (settings st)) eqn:Hask.
    + destruct C as (url & Hurl & Hsent & _). rewrite Hsent.
      split; [|split].
      * split; [discriminate|]. intros [H|H]; discriminate.
      * simpl. lia.
      * intros h [= <-] _. exists url. split; [exact Hurl|reflexivity].
    + rewrite C. split; [|split].
      * split; [now right|reflexivity].
      * simpl. lia.
      * intros h _ H. discriminate.
  - rewrite C. split; [|split].
    + split; [now left|reflexivity].
    + simpl. lia.
    + intros h H. discriminate.
Qed.

(** X5: past its guards [handleGenerate] leaves one of three states,
    by what the request comes to: with an image returned, COMPLETE
    with that data URI and no error message; with an error, ERROR with
    the message of the error, or the generic one when that is empty,
    and the generated image it had before; and while the service has
    not answered, GENERATING with no error message. *)
Theorem generate_outcomes (st : State) (handle : CanvasEditor.Editor) :
  canvasRef st = Some handle ->
  expansionAsked (settings st) = true ->
  exists url,
    CanvasEditor.getCanvasDataUrl handle = Returns url
    /\ match Gemini.answer (Gemini.expandImage url (prompt (settings st))) with
       | Returns result =>
           appState (final (handleGenerate st)) = COMPLETE
           /\ generatedImage (final (handleGenerate st)) = Some result
           /\ errorMsg (final (handleGenerate st)) = None
           /\ exists mime payload,
               result = "data:" ++ mime ++ ";base64," ++ payload
               /\ mime <> EmptyString /\ payload <> EmptyString
       | Throws err =>
           appState (final (handleGenerate st)) = ERROR
           /\ errorMsg (final (handleGenerate st))
              = Some match message err with
                     | EmptyString => "Failed to generate image. Please try again."
                     | String _ _ => message err
                     end
           /\ generatedImage (final (handleGenerate st)) = generatedImage st
       | Pending =>
           appState (final (handleGenerate st)) = GENERATING
           /\ errorMsg (final (handleGenerate st)) = None
           /\ generatedImage (final (handleGenerate st)) = generatedImage st
       end.
Proof.
  intros Href Hask.
  pose proof (handleGenerate_cases st) as C. rewrite Href, Hask in C.
  destruct C as (url & Hurl & _ & Hfinal). rewrite Hfinal.
  exists url. split; [exact Hurl|].
  destruct (Gemini.answer (Gemini.expandImage url (prompt (settings st))))
    as [result|err|] eqn:A.
  - destruct (expandImage_shape _ _ _ A) as (mime & payload & E & Hm & Hp & _).
    repeat split. now exists mime, payload.
  - repeat split. simpl. unfold or_else. now destruct (message err).
  - repeat split.
Qed.

Lemma handleGenerate_keeps (st : State) :
  settings (final (handleGenerate st)) = settings st
  /\ originalImage (final (handleGenerate st)) = originalImage st
  /\ canvasRef (final (handleGenerate st)) = canvasRef st.
Proof.
  pose proof (handleGenerate_cases st) as C.
  destruct (canvasRef st) as [handle|] eqn:Href.
  - destruct (expansionAsked (settings st)).
    + destruct C as (url & _ & _ & ->).
      destruct (Gemini.answer _); simpl; now rewrite Href.
    + rewrite C. simpl. now rewrite Href.
  - rewrite C. simpl. now rewrite Href.
Qed.

Lemma handleGenerate_sent_depends (st st' : State) :
  settings st' = settings st -> canvasRef st' = canvasRef st ->
  sent (handleGenerate st') = sent (handleGenerate st).
Proof.
  intros Es Er.
  pose proof (handleGenerate_cases st) as C.
  pose proof (handleGenerate_cases st') as C'.
  rewrite Es, Er in C'.
  destruct (canvasRef st) as [handle|].
  - destruct (expansionAsked (settings st)).
    + destruct C as (url & Hurl & -> & _). destruct C' as (url' & Hurl' & -> & _).
      rewrite Hurl in Hurl'. now injection Hurl' as ->.
    + now rewrite C', C.
  - now rewrite C', C.
Qed.

(** X6: [handleGenerate] leaves the settings and the original image
    alone, and when it has ended in ERROR, where the editor stays as
    it was, running it again sends the same requests. *)
Theorem generate_keeps (st : State) :
  settings (final (handleGenerate st)) = settings st
  /\ originalImage (final (handleGenerate st)) = originalImage st
  /\ (appState (final (handleGenerate st)) = ERROR ->
      sent (handleGenerate (final (handleGenerate st))) = sent (handleGenerate st)).
Proof.
  destruct (handleGenerate_keeps st) as (Ks & Ko & Kr).
  repeat split; auto.
  intros _. now apply handleGenerate_sent_depends.
Qed.

End Generate.


(** ** What holds in every state of the component *)

Section Reachable.
Import JS App Handlers.

Lemma isSlider_notch (k : nat) : (k <= 10)%nat -> isSlider (sliderValue k).
Proof. intros Hk. now exists k. Qed.

Lemma initial_invariant : invariant initial.
Proof.
  split; simpl; try (apply (isSlider_notch 0); lia); try discriminate; auto.
Qed.

Lemma step_invariant (st st' : State) :
  invariant st -> step st st' -> invariant st'.
Proof.
  intros [It Ib Il Ir Ig Ic Im Ie Io Ii] S.
  destruct S as [file st|k st Hk|k st Hk|k st Hk|k st Hk|p st|st|st|st|st
                 |response result st Hres|err st|ed st].
  - destruct file as [result|]; [|now split].
    unfold handleFileUpload, fileLoaded.
    destruct (truthy_opt result) eqn:T; [|now split].
    split; simpl; auto; try (apply (isSlider_notch 0); lia);
      try (apply (isSlider_notch 5); lia); try discriminate.
    intros src ->. simpl in T. now apply truthy_iff.
  - split; simpl; auto. now apply isSlider_notch.
  - split; simpl; auto. now apply isSlider_notch.
  - split; simpl; auto. now apply isSlider_notch.
  - split; simpl; auto. now apply isSlider_notch.
  - split; simpl; auto.
  - split; simpl; auto; try (apply (isSlider_notch 0); lia); discriminate.
  - split; simpl; auto; discriminate.
  - split; simpl; auto; try discriminate.
    intros msg [= <-]. discriminate.
  - split; simpl; auto; discriminate.
  - split; simpl; auto; try discriminate.
    intros url [= <-].
    destruct (extractImage_shape _ _ Hres)
      as (first & others & c & ps & part & blob & payload
          & _ & _ & _ & _ & _ & _ & Hne & ->).
    exists (or_else (Gemini.mimeType blob) "image/png"), payload.
    split; [reflexivity|]. split; [apply or_else_truthy; discriminate|exact Hne].
  - split; simpl; auto; try discriminate.
    intros msg [= <-]. destruct (message err); simpl; discriminate.
  - split; simpl; auto.
Qed.

Lemma reachable_invariant (st : State) : reachable st -> invariant st.
Proof.
  induction 1 as [|st st' _ IH S].
  - exact initial_invariant.
  - exact (step_invariant st st' IH S).
Qed.

Lemma sliderValue_ge0 (k : nat) : (k <= 10)%nat -> ge0 (sliderValue k) = true.
Proof.
  intros Hk.
  do 11 (destruct k as [|k]; [vm_compute; reflexivity|]). lia.
Qed.

Lemma sliderValue_exact (k : nat) :
  (k <= 10)%nat -> truncZ (sliderValue k) = Some (10 * Z.of_nat k)%Z.
Proof.
  intros Hk.
  do 11 (destruct k as [|k]; [vm_compute; reflexivity|]). lia.
Qed.

Context {service : Gemini.GenAI} {encoder : Canvas.PngEncoder}.

(** X7: a run of [handleGenerate] is made of the steps above: from a
    state the component can be in it ends in one. *)
Theorem handleGenerate_reachable (st : State) :
  reachable st -> reachable (final (handleGenerate st)).
Proof.
  intros Hst. pose proof (handleGenerate_cases st) as C.
  destruct (canvasRef st) as [handle|].
  - destruct (expansionAsked (settings st)).
    + destruct C as (url & _ & _ & ->).
      assert (Hb : reachable (begin st)).
      { eapply reach_step; [exact Hst|apply step_begin]. }
      unfold Gemini.expandImage. cbn [Gemini.answer].
      destruct (Gemini.generateContent _) as [response|e|].
      * destruct (Gemini.extractImage response) as [result|err|] eqn:E.
        -- eapply reach_step; [exact Hb|].
           eapply step_succeed. exact E.
        -- eapply reach_step; [exact Hb|apply step_fail].
        -- exact Hb.
      * eapply reach_step; [exact Hb|apply step_fail].
      * exact Hb.
    + rewrite C. cbn [final].
      eapply reach_step; [exact Hst|apply step_refused].
  - rewrite C. exact Hst.
Qed.

Lemma reachable_sliders (st : State) :
  reachable st ->
  (exists kt kb kl kr,
      (kt <= 10 /\ kb <= 10 /\ kl <= 10 /\ kr <= 10)%nat
      /\ top (settings st) = sliderValue kt
      /\ bottom (settings st) = sliderValue kb
      /\ left (settings st) = sliderValue kl
      /\ right (settings st) = sliderValue kr
      /\ truncZ (top (settings st)) = Some (10 * Z.of_nat kt)%Z
      /\ truncZ (bottom (settings st)) = Some (10 * Z.of_nat kb)%Z
      /\ truncZ (left (settings st)) = Some (10 * Z.of_nat kl)%Z
      /\ truncZ (right (settings st)) = Some (10 * Z.of_nat kr)%Z)
  /\ ge0 (top (settings st)) = true /\ ge0 (bottom (settings st)) = true
  /\ ge0 (left (settings st)) = true /\ ge0 (right (settings st)) = true.
Proof.
  intros Hst.
  destruct (reachable_invariant st Hst)
    as [(kt & Ht & Et) (kb & Hb & Eb) (kl & Hl & El) (kr & Hr & Er) _ _ _ _ _ _].
  rewrite Et, Eb, El, Er. split.
  - exists kt, kb, kl, kr. repeat split; auto using sliderValue_exact.
  - repeat split; now apply sliderValue_ge0.
Qed.

(** X8: in every state the component can be in, the four percentages
    are slider values, 0 to 100 in steps of 10, and so not negative. *)
Theorem reachable_settings_are_sliders (st : State) :
  reachable st ->
  (exists kt kb kl kr,
      (kt <= 10 /\ kb <= 10 /\ kl <= 10 /\ kr <= 10)%nat
      /\ top (settings st) = sliderValue kt
      /\ bottom (settings st) = sliderValue kb
      /\ left (settings st) = sliderValue kl
      /\ right (settings st) = sliderValue kr
      /\ truncZ (top (settings st)) = Some (10 * Z.of_nat kt)%Z
      /\ truncZ (bottom (settings st)) = Some (10 * Z.of_nat kb)%Z
      /\ truncZ (left (settings st)) = Some (10 * Z.of_nat kl)%Z
      /\ truncZ (right (settings st)) = Some (10 * Z.of_nat kr)%Z)
  /\ ge0 (top (settings st)) = true /\ ge0 (bottom (settings st)) = true
  /\ ge0 (left (settings st)) = true /\ ge0 (right (settings st)) = true.
Proof. exact (reachable_sliders st). Qed.

(** X9: in every state the component can be in, a redraw with the
    settings of the state, where the left and top pads it computes are
    the exact floors of the percentages, gives a canvas whose pixels
    are white outside the rectangle of the image and, inside it, the
    source pixel where that is opaque, white where it is fully
    transparent and the browser's blend of the two anywhere between;
    that the settings are not negative need not be asked. *)
Theorem reachable_canvas_pixels {blender : Pixel.Blender} (st : State)
    (image : Img.Image) (ctx : Canvas.Canvas) (pl pt x y : Z) :
  reachable st ->
  Spec.padOf (Z.of_N (Img.width image)) (left (settings st)) = Some pl ->
  Spec.padOf (Z.of_N (Img.height image)) (top (settings st)) = Some pt ->
  truncZ (CanvasEditor.padLeft image (settings st)) = Some pl ->
  truncZ (CanvasEditor.padTop image (settings st)) = Some pt ->
  (0 <= x < Canvas.width (CanvasEditor.composite image (settings st) ctx))%Z ->
  (0 <= y < Canvas.height (CanvasEditor.composite image (settings st) ctx))%Z ->
  let inside := (pl <= x < pl + Z.of_N (Img.width image)
                 /\ pt <= y < pt + Z.of_N (Img.height image))%Z in
  let src := Img.pixelAt image (x - pl) (y - pt) in
  let out := Canvas.bitmap (CanvasEditor.composite image (settings st) ctx) x y in
  (~ inside -> out = Pixel.mkRGBA 255 255 255 255)
  /\ (inside ->
      (Pixel.alpha src = 255%Z -> out = src)
      /\ (Pixel.alpha src = 0%Z -> out = Pixel.mkRGBA 255 255 255 255)
      /\ (Pixel.alpha src <> 255%Z -> Pixel.alpha src <> 0%Z ->
          out = Pixel.blend src (Pixel.mkRGBA 255 255 255 255))).
Proof.
  intros Hst _ _ El Et Hx Hy.
  destruct (reachable_sliders st Hst) as (_ & Ht & Hb & Hl & Hr).
  now apply composite_pixel_cases.
Qed.

(** X10: in every state the component can be in, COMPLETE comes with
    a generated image that is a data URI, so the result view is
    shown. *)
Theorem reachable_complete_shows_result (st : State) :
  reachable st ->
  appState st = COMPLETE ->
  resultShown st = true
  /\ exists url, generatedImage st = Some url /\ isDataUrl url.
Proof.
  intros Hst Hc.
  destruct (reachable_invariant st Hst) as [_ _ _ _ Ig Ic _ _ _ _].
  specialize (Ic Hc). unfold resultShown. rewrite Hc.
  destruct (generatedImage st) as [url|]; [|congruence].
  pose proof (Ig url eq_refl) as Hu. split; [|now exists url].
  destruct Hu as (mime & payload & -> & _). reflexivity.
Qed.

(** X11: in every state the component can be in, ERROR comes with an
    error message, a stored error message is never empty, and IDLE
    holds no image. *)
Theorem reachable_error_has_message (st : State) :
  reachable st ->
  (appState st = ERROR -> exists msg, errorMsg st = Some msg /\ msg <> EmptyString)
  /\ (forall msg, errorMsg st = Some msg -> truthy msg = true)
  /\ (appState st = IDLE -> originalImage st = None /\ generatedImage st = None).
Proof.
  intros Hst.
  destruct (reachable_invariant st Hst) as [_ _ _ _ _ _ Im Ie _ Ii].
  split; [|split].
  - intros He. specialize (Ie He).
    destruct (errorMsg st) as [msg|]; [|congruence].
    exists msg. split; [reflexivity|now apply Im].
  - intros msg Hm. apply truthy_iff. now apply Im.
  - exact Ii.
Qed.

End Reachable.


(** ** From the canvas to the request *)

Section CanvasToRequest.
Import JS App Handlers.
Context {service : Gemini.GenAI} {encoder : Canvas.PngEncoder}.

(** The export of a canvas, with its prefix taken off again. *)
Lemma toDataURL_stripped (canvas : Canvas.Canvas) :
  Gemini.stripDataUrlPrefix (Canvas.toDataURL canvas)
  = if ((Canvas.width canvas =? 0) || (Canvas.height canvas =? 0))%Z
    then "data:,"
    else match Canvas.encodePNG (Canvas.width canvas) (Canvas.height canvas)
                 (Canvas.raster canvas) with
         | Some png => png
         | None => "data:,"
         end.
Proof.
  unfold Canvas.toDataURL.
  destruct ((Canvas.width canvas =? 0) || (Canvas.height canvas =? 0))%Z.
  - reflexivity.
  - destruct (Canvas.encodePNG _ _ _) as [png|]; [|reflexivity].
    apply (stripDataUrlPrefix_listed "png"). simpl. auto.
Qed.

(** X12: with the editor drawn for the settings of the state,
    [handleGenerate] sends one request whose image is the PNG encoding
    of the composited canvas, without the data URL prefix, and whose
    text is the instruction made from the prompt; a canvas without
    area, and one the browser cannot encode, goes out as the text
    [data:,]. *)
Theorem generate_sends_the_composite {blender : Pixel.Blender} (st : State)
    (image : Img.Image) (canvas ctx : Canvas.Canvas) :
  canvasRef st
  = Some (CanvasEditor.redraw (settings st)
            (CanvasEditor.mkEditor (Some image) (Some canvas))) ->
  Canvas.mode canvas <> Canvas.BoundOther ->
  Canvas.mode ctx = Canvas.Bound2D ->
  expansionAsked (settings st) = true ->
  map Gemini.imagePayloads (sent (handleGenerate st))
  = [[ let drawn := CanvasEditor.composite image (settings st) ctx in
       if ((Canvas.width drawn =? 0) || (Canvas.height drawn =? 0))%Z
       then "data:,"
       else match Canvas.encodePNG (Canvas.width drawn) (Canvas.height drawn)
                    (Canvas.raster drawn) with
            | Some png => png
            | None => "data:,"
            end ]]
  /\ map Gemini.instructions (sent (handleGenerate st))
     = [[Gemini.userPrompt (prompt (settings st))]].
Proof.
  intros Href Hmode Hctx Hask.
  pose proof (handleGenerate_cases st) as C. rewrite Href, Hask in C.
  destruct C as (url & Hurl & Hsent & _). rewrite Hsent.
  rewrite getCanvasDataUrl_returns, (redraw_mounted image (settings st) canvas Hmode)
    in Hurl.
  cbn [CanvasEditor.canvasRef] in Hurl. injection Hurl as <-.
  split; [|reflexivity].
  cbn [map]. unfold Gemini.imagePayloads, Gemini.buildRequest.
  cbn [Gemini.contents Gemini.partsOf Gemini.parts flat_map Gemini.textPart
       Gemini.imagePart Gemini.inlineData Gemini.data app].
  rewrite toDataURL_stripped.
  rewrite (composite_fresh image (settings st) _ ctx); [reflexivity|].
  now rewrite Hctx.
Qed.

End CanvasToRequest.


(** ** Whole numbers are exact *)

Section Exact.
Import JS.
Local Open Scope Z_scope.

Lemma Zdigits2_log2 (p : positive) : Z.pos (digits2_pos p) = Z.log2 (Z.pos p) + 1.
Proof.
  induction p as [p IH|p IH|]; simpl digits2_pos.
  - rewrite Pos2Z.inj_succ, IH.
    change (Z.pos p~1) with (2 * Z.pos p + 1).
    rewrite Z.log2_succ_double; lia.
  - rewrite Pos2Z.inj_succ, IH.
    change (Z.pos p~0) with (2 * Z.pos p).
    rewrite Z.log2_double; lia.
  - reflexivity.
Qed.

Lemma digits_bound (p : positive) :
  Z.pos p < 2 ^ 53 -> 1 <= Z.pos (digits2_pos p) <= 53.
Proof.
  intros Hp. rewrite Zdigits2_log2.
  pose proof (Z.log2_nonneg (Z.pos p)).
  assert (Z.log2 (Z.pos p) < 53); [|lia].
  apply Z.log2_lt_pow2; lia.
Qed.

Lemma digits_scaled (p : positive) (n : Z) :
  0 <= n -> Zdigits2 (Z.pos p * 2 ^ n) = Z.pos (digits2_pos p) + n.
Proof.
  intros Hn.
  assert (Hpos : 0 < Z.pos p * 2 ^ n) by (apply Z.mul_pos_pos; [lia|apply Z.pow_pos_nonneg; lia]).
  destruct (Z.pos p * 2 ^ n) as [|q|q] eqn:E; try lia.
  simpl Zdigits2. rewrite !Zdigits2_log2, <- E.
  rewrite Z.log2_mul_pow2; lia.
Qed.

Lemma shr_1_double (m : Z) :
  0 < m ->
  shr_1 {| shr_m := m * 2; shr_r := false; shr_s := false |}
  = {| shr_m := m; shr_r := false; shr_s := false |}.
Proof.
  destruct m as [|p|p]; try lia. intros _.
  rewrite Z.mul_comm. reflexivity.
Qed.

Lemma iter_shr_1 (p : positive) :
  forall m, 0 < m ->
    iter_pos shr_1 p {| shr_m := m * 2 ^ Z.pos p; shr_r := false; shr_s := false |}
    = {| shr_m := m; shr_r := false; shr_s := false |}.
Proof.
  induction p as [p IH|p IH|]; intros m Hm; cbn [iter_pos].
  - replace (m * 2 ^ Z.pos p~1) with (((m * 2 ^ Z.pos p) * 2 ^ Z.pos p) * 2).
    + rewrite shr_1_double.
      * rewrite IH; [apply IH; exact Hm|].
        apply Z.mul_pos_pos; [exact Hm|apply Z.pow_pos_nonneg; lia].
      * repeat apply Z.mul_pos_pos; try exact Hm; apply Z.pow_pos_nonneg; lia.
    + replace (Z.pos p~1) with (Z.pos p + Z.pos p + 1) by lia.
      rewrite !Z.pow_add_r, Z.pow_1_r by lia. ring.
  - replace (m * 2 ^ Z.pos p~0) with ((m * 2 ^ Z.pos p) * 2 ^ Z.pos p).
    + rewrite IH; [apply IH; exact Hm|].
      apply Z.mul_pos_pos; [exact Hm|apply Z.pow_pos_nonneg; lia].
    + replace (Z.pos p~0) with (Z.pos p + Z.pos p) by lia.
      rewrite Z.pow_add_r by lia. ring.
  - rewrite Z.pow_1_r. now apply shr_1_double.
Qed.

Lemma shr_exact (m e n : Z) :
  0 < m -> 0 <= n ->
  shr {| shr_m := m * 2 ^ n; shr_r := false; shr_s := false |} e n
  = ({| shr_m := m; shr_r := false; shr_s := false |}, e + n).
Proof.
  intros Hm Hn. unfold shr. destruct n as [|p|p]; try lia.
  - rewrite Z.pow_0_r, Z.mul_1_r, Z.add_0_r. reflexivity.
  - now rewrite iter_shr_1.
Qed.

(** A mantissa of 53 digits with zeros after it is rounded to itself. *)
Lemma binary_round_aux_exact (c : positive) (n e : Z) :
  Z.pos (digits2_pos c) = 53 -> 0 <= n -> -1074 <= e <= 971 ->
  binary_round_aux prec emax false (Z.pos c * 2 ^ n) (e - n) loc_Exact
  = S754_finite false c e.
Proof.
  intros Hc Hn He. unfold binary_round_aux, shr_fexp.
  rewrite digits_scaled, Hc by exact Hn.
  unfold fexp, emin, prec, emax.
  replace (Z.max (53 + n + (e - n) - 53) (3 - 1024 - 53) - (e - n)) with n by lia.
  cbn [shr_record_of_loc]. rewrite shr_exact by lia.
  cbn [shr_m loc_of_shr_record round_nearest_even].
  cbn [Zdigits2]. rewrite Hc.
  replace (e - n + n) with e by lia.
  replace (Z.max (53 + e - 53) (3 - 1024 - 53) - e) with 0 by lia.
  cbn [shr shr_m].
  destruct (e <=? 1024 - 53) eqn:B; [reflexivity|].
  apply Z.leb_gt in B. lia.
Qed.


Lemma iter_xO_value (m d : positive) :
  Z.pos (Pos.iter xO m d) = Z.pos m * 2 ^ Z.pos d.
Proof.
  induction d as [|d IH] using Pos.peano_ind.
  - simpl. lia.
  - rewrite Pos.iter_succ, Pos2Z.inj_xO, IH, Pos2Z.inj_succ, Z.pow_succ_r by lia.
    ring.
Qed.

(** The mantissa of [Whole.normal]. *)
Lemma normal_mantissa (v : positive) :
  Z.pos v < 2 ^ 53 ->
  exists c,
    Whole.normal v = S754_finite false c (Z.pos (digits2_pos v) - 53)
    /\ Z.pos c = Z.pos v * 2 ^ (53 - Z.pos (digits2_pos v))
    /\ Z.pos (digits2_pos c) = 53.
Proof.
  intros Hv. pose proof (digits_bound v Hv) as Hd.
  set (d := Z.pos (digits2_pos v)) in *.
  assert (Hpos : 0 < Z.pos v * 2 ^ (53 - d))
    by (apply Z.mul_pos_pos; [lia|apply Z.pow_pos_nonneg; lia]).
  exists (Z.to_pos (Z.pos v * 2 ^ (53 - d))).
  assert (E : Z.pos (Z.to_pos (Z.pos v * 2 ^ (53 - d))) = Z.pos v * 2 ^ (53 - d))
    by (apply Z2Pos.id; exact Hpos).
  split; [|split].
  - unfold Whole.normal. fold d. rewrite Z.shiftl_mul_pow2 by lia.
    f_equal. lia.
  - exact E.
  - change (Z.pos (digits2_pos (Z.to_pos (Z.pos v * 2 ^ (53 - d)))))
      with (Zdigits2 (Z.pos (Z.to_pos (Z.pos v * 2 ^ (53 - d))))).
    rewrite E, digits_scaled by lia. fold d. lia.
Qed.

Lemma binary_round_exact (m v : positive) (k : Z) :
  Z.pos m = Z.pos v * 2 ^ k -> 0 <= k -> Z.pos v < 2 ^ 53 ->
  binary_round prec emax false m (- k) = Whole.normal v.
Proof.
  intros Hm Hk Hv.
  destruct (normal_mantissa v Hv) as (c & -> & Hc & Hdc).
  pose proof (digits_bound v Hv) as Hd.
  set (d := Z.pos (digits2_pos v)) in *.
  assert (Hdm : Z.pos (digits2_pos m) = d + k).
  { change (Z.pos (digits2_pos m)) with (Zdigits2 (Z.pos m)).
    rewrite Hm, digits_scaled by exact Hk. reflexivity. }
  unfold binary_round. rewrite Hdm. clearbody d.
  unfold fexp, emin, prec, emax.
  replace (Z.max (d + k + - k - 53) (3 - 1024 - 53)) with (d - 53) by lia.
  unfold shl_align.
  destruct (d - 53 - - k) as [|q|q] eqn:Hq.
  - replace (Z.pos m) with (Z.pos c * 2 ^ 0);
      [|rewrite Hc, Hm, Z.pow_0_r, Z.mul_1_r; f_equal; f_equal; lia].
    replace (- k) with (d - 53 - 0) by lia.
    apply binary_round_aux_exact; lia.
  - replace (Z.pos m) with (Z.pos c * 2 ^ Z.pos q).
    + replace (- k) with (d - 53 - Z.pos q) by lia.
      apply binary_round_aux_exact; lia.
    + rewrite Hc, Hm, <- Z.mul_assoc, <- Z.pow_add_r by lia. f_equal. f_equal. lia.
  - rewrite iter_xO_value.
    replace (Z.pos m * 2 ^ Z.pos q) with (Z.pos c * 2 ^ 0).
    + replace (d - 53) with (d - 53 - 0) at 1 by lia.
      apply binary_round_aux_exact; lia.
    + rewrite Hc, Hm, Z.pow_0_r, Z.mul_1_r, <- Z.mul_assoc, <- Z.pow_add_r by lia.
      f_equal. f_equal. lia.
Qed.

Lemma of_Z_normal (v : positive) :
  Z.pos v < 2 ^ 53 -> of_Z (Z.pos v) = Whole.normal v.
Proof.
  intros Hv. unfold of_Z, binary_normalize.
  change 0 with (- 0). apply binary_round_exact; lia.
Qed.

Lemma truncZ_normal (v : positive) :
  Z.pos v < 2 ^ 53 -> truncZ (Whole.normal v) = Some (Z.pos v).
Proof.
  intros Hv. destruct (normal_mantissa v Hv) as (c & -> & Hc & _).
  pose proof (digits_bound v Hv) as Hd.
  cbn [truncZ cond_Zopp]. f_equal.
  rewrite Hc.
  replace (Z.pos (digits2_pos v) - 53) with (- (53 - Z.pos (digits2_pos v))) by lia.
  rewrite Z.shiftl_opp_r, Z.shiftr_div_pow2 by lia.
  apply Z.div_mul. apply Z.pow_nonzero; lia.
Qed.

(** A whole number from 0 to 2^53 - 1 goes into a number and back
    unchanged. *)
Lemma truncZ_of_Z (z : Z) : 0 <= z < 2 ^ 53 -> truncZ (of_Z z) = Some z.
Proof.
  intros Hz. destruct z as [|v|v]; try lia.
  - reflexivity.
  - rewrite of_Z_normal by lia. apply truncZ_normal. lia.
Qed.

End Exact.


(** ** Whole numbers: sums and the pads of 0, 50 and 100 percent *)

Section Arithmetic.
Import JS.
Local Open Scope Z_scope.

Lemma shl_align_value (m : positive) (e ez : Z) :
  ez <= e -> Z.pos (fst (shl_align m e ez)) = Z.pos m * 2 ^ (e - ez).
Proof.
  intros Hle. unfold shl_align.
  destruct (ez - e) as [|q|q] eqn:Hq; try lia.
  - replace (e - ez) with 0 by lia. simpl fst. lia.
  - simpl fst. rewrite iter_xO_value. f_equal. f_equal. lia.
Qed.

Lemma of_Z_shape (z : Z) :
  0 <= z < 2 ^ 53 ->
  of_Z z = S754_zero false /\ z = 0
  \/ exists v, z = Z.pos v /\ of_Z z = Whole.normal v.
Proof.
  intros Hz. destruct z as [|v|v]; try lia.
  - left. split; reflexivity.
  - right. exists v. split; [reflexivity|apply of_Z_normal; lia].
Qed.

Lemma add_normal (a b : positive) :
  Z.pos a + Z.pos b < 2 ^ 53 ->
  add (Whole.normal a) (Whole.normal b) = Whole.normal (a + b).
Proof.
  intros Hab.
  destruct (normal_mantissa a ltac:(lia)) as (ca & -> & Hca & _).
  destruct (normal_mantissa b ltac:(lia)) as (cb & -> & Hcb & _).
  pose proof (digits_bound a ltac:(lia)) as Hda.
  pose proof (digits_bound b ltac:(lia)) as Hdb.
  set (ea := Z.pos (digits2_pos a) - 53) in *.
  set (eb := Z.pos (digits2_pos b) - 53) in *.
  unfold add, SFadd. cbn [cond_Zopp].
  set (ez := Z.min ea eb).
  assert (Hez : ez <= ea /\ ez <= eb /\ ez <= 0) by (unfold ez, ea, eb; lia).
  assert (S : Z.pos (fst (shl_align ca ea ez)) + Z.pos (fst (shl_align cb eb ez))
              = Z.pos (a + b) * 2 ^ (- ez)).
  { rewrite !shl_align_value by lia. rewrite Hca, Hcb.
    replace (53 - Z.pos (digits2_pos a)) with (- ea) by (unfold ea; lia).
    replace (53 - Z.pos (digits2_pos b)) with (- eb) by (unfold eb; lia).
    rewrite <- !Z.mul_assoc, <- !Z.pow_add_r by lia.
    replace (- ea + (ea - ez)) with (- ez) by lia.
    replace (- eb + (eb - ez)) with (- ez) by lia.
    rewrite Pos2Z.inj_add. ring. }
  destruct (Z.pos (fst (shl_align ca ea ez)) + Z.pos (fst (shl_align cb eb ez)))
    as [|m|m] eqn:E; try lia.
  cbn [binary_normalize].
  replace ez with (- - ez) at 1 by lia.
  apply binary_round_exact; [exact S|lia|lia].
Qed.

(** Whole numbers add up without rounding. *)
Lemma add_of_Z (a b : Z) :
  0 <= a -> 0 <= b -> a + b < 2 ^ 53 -> add (of_Z a) (of_Z b) = of_Z (a + b).
Proof.
  intros Ha Hb Hab.
  destruct (of_Z_shape a ltac:(lia)) as [[-> ->]|(va & -> & ->)];
    destruct (of_Z_shape b ltac:(lia)) as [[Eb ->]|(vb & -> & Eb)].
  - reflexivity.
  - rewrite Z.add_0_l, Eb.
    destruct (normal_mantissa vb ltac:(lia)) as (c & -> & _). reflexivity.
  - rewrite Z.add_0_r, of_Z_normal by lia.
    destruct (normal_mantissa va ltac:(lia)) as (c & -> & _). reflexivity.
  - rewrite Eb, add_normal by exact Hab.
    symmetry. apply (of_Z_normal (va + vb)). exact Hab.
Qed.

(** Multiplying a whole number by a power of two given with the
    mantissa 2^52 moves its exponent. *)
Lemma mul_normal_pow2 (v : positive) (t : Z) :
  Z.pos v < 2 ^ 53 -> -60 <= t <= -40 ->
  exists c,
    Whole.normal v = S754_finite false c (Z.pos (digits2_pos v) - 53)
    /\ Z.pos c = Z.pos v * 2 ^ (53 - Z.pos (digits2_pos v))
    /\ mul (Whole.normal v) (S754_finite false 4503599627370496 t)
       = S754_finite false c (Z.pos (digits2_pos v) - 53 + t + 52).
Proof.
  intros Hv Ht.
  destruct (normal_mantissa v Hv) as (c & E & Hc & Hdc).
  pose proof (digits_bound v Hv) as Hd.
  exists c. split; [exact E|]. split; [exact Hc|].
  rewrite E. unfold mul, SFmul. cbn [xorb].
  rewrite Pos2Z.inj_mul.
  change (Z.pos 4503599627370496) with (2 ^ 52).
  rewrite <- (binary_round_aux_exact c 52 (Z.pos (digits2_pos v) - 53 + t + 52))
    by lia.
  f_equal. lia.
Qed.

Lemma half : div (of_Z 50) (of_Z 100) = S754_finite false 4503599627370496 (-53).
Proof. vm_compute. reflexivity. Qed.

Lemma whole : div (of_Z 100) (of_Z 100) = S754_finite false 4503599627370496 (-52).
Proof. vm_compute. reflexivity. Qed.

Lemma pad_none (dim : Z) (s : bool) :
  0 <= dim < 2 ^ 53 -> CanvasEditor.pad (of_Z dim) (S754_zero s) = S754_zero s.
Proof.
  intros Hd. unfold CanvasEditor.pad. rewrite hundred.
  destruct (of_Z_shape dim Hd) as [[-> _]|(v & -> & ->)].
  - now destruct s.
  - destruct (normal_mantissa v ltac:(lia)) as (c & -> & _). now destruct s.
Qed.

Lemma pad_full (dim : Z) :
  0 <= dim < 2 ^ 53 -> CanvasEditor.pad (of_Z dim) (of_Z 100) = of_Z dim.
Proof.
  intros Hd. unfold CanvasEditor.pad. rewrite whole.
  destruct (of_Z_shape dim Hd) as [[-> _]|(v & -> & E)]; [reflexivity|].
  rewrite E.
  destruct (mul_normal_pow2 v (-52) ltac:(lia) ltac:(lia)) as (c & En & Hc & ->).
  pose proof (digits_bound v ltac:(lia)) as Hdv.
  replace (Z.pos (digits2_pos v) - 53 + -52 + 52) with (Z.pos (digits2_pos v) - 53)
    by lia.
  rewrite En. unfold Math_floor.
  destruct (0 <=? Z.pos (digits2_pos v) - 53) eqn:B; [reflexivity|].
  apply Z.leb_gt in B. cbn [cond_Zopp].
  assert (Z : Z.shiftr (Z.pos c) (- (Z.pos (digits2_pos v) - 53)) = Z.pos v).
  { rewrite Z.shiftr_div_pow2, Hc by lia.
    replace (- (Z.pos (digits2_pos v) - 53)) with (53 - Z.pos (digits2_pos v)) by lia.
    apply Z.div_mul, Z.pow_nonzero; lia. }
  rewrite Z. cbn [Z.eqb]. rewrite <- En. apply of_Z_normal. lia.
Qed.

Lemma pad_half (dim : Z) :
  0 <= dim < 2 ^ 53 -> CanvasEditor.pad (of_Z dim) (of_Z 50) = of_Z (dim / 2).
Proof.
  intros Hd. unfold CanvasEditor.pad. rewrite half.
  destruct (of_Z_shape dim Hd) as [[-> ->]|(v & -> & E)]; [reflexivity|].
  rewrite E.
  destruct (mul_normal_pow2 v (-53) ltac:(lia) ltac:(lia)) as (c & En & Hc & ->).
  pose proof (digits_bound v ltac:(lia)) as Hdv.
  set (e := Z.pos (digits2_pos v) - 53) in *.
  unfold Math_floor.
  destruct (0 <=? e + -53 + 52) eqn:B; [apply Z.leb_le in B; lia|].
  cbn [cond_Zopp].
  assert (Z : Z.shiftr (Z.pos c) (- (e + -53 + 52)) = Z.pos v / 2).
  { rewrite Z.shiftr_div_pow2, Hc by lia.
    replace (53 - Z.pos (digits2_pos v)) with (- e) by (unfold e; lia).
    replace (- (e + -53 + 52)) with (- e + 1) by lia.
    rewrite Z.pow_add_r, Z.pow_1_r by lia.
    rewrite (Z.mul_comm (2 ^ (- e)) 2).
    apply Z.div_mul_cancel_r; [lia|]. apply Z.pow_nonzero; lia. }
  rewrite Z. destruct (Z.pos v / 2 =? 0) eqn:Q; [|reflexivity].
  apply Z.eqb_eq in Q. now rewrite Q.
Qed.

End Arithmetic.


(** ** The canvas where the arithmetic is exact *)

Section ExactPads.
Import JS Pixel CanvasEditor.
Local Open Scope Z_scope.
Context {blender : Blender}.

Lemma pad_notch (dim : Z) (k : nat) :
  0 <= dim < 2 ^ 53 -> In k [0%nat; 5%nat; 10%nat] ->
  pad (of_Z dim) (Handlers.sliderValue k) = of_Z (dim * (10 * Z.of_nat k) / 100).
Proof.
  intros Hd [<-|[<-|[<-|[]]]].
  - change (Handlers.sliderValue 0) with (S754_zero false).
    rewrite pad_none by exact Hd. now rewrite Z.mul_0_r.
  - change (Handlers.sliderValue 5) with (of_Z 50).
    rewrite pad_half by exact Hd. f_equal.
    change (10 * Z.of_nat 5) with (1 * 50). change 100 with (2 * 50).
    rewrite Z.mul_assoc, Z.mul_1_r.
    symmetry. apply Z.div_mul_cancel_r; lia.
  - change (Handlers.sliderValue 10) with (of_Z 100).
    rewrite pad_full by exact Hd. f_equal.
    change (10 * Z.of_nat 10) with 100. symmetry. apply Z.div_mul. lia.
Qed.

Lemma dimension_of_Z (d z : Z) :
  0 <= z <= 2147483647 -> Canvas.dimension d (of_Z z) = z.
Proof.
  intros Hz. unfold Canvas.dimension, ToUint32.
  rewrite truncZ_of_Z by lia.
  rewrite Z.mod_small by lia.
  destruct (z <=? 2147483647) eqn:B; [reflexivity|].
  apply Z.leb_gt in B. lia.
Qed.

Lemma extent_notch (dim : Z) (k1 k2 : nat) :
  0 <= dim ->
  In k1 [0%nat; 5%nat; 10%nat] -> In k2 [0%nat; 5%nat; 10%nat] ->
  dim + dim * (10 * Z.of_nat k1) / 100 + dim * (10 * Z.of_nat k2) / 100 < 2 ^ 53 ->
  add (add (of_Z dim) (pad (of_Z dim) (Handlers.sliderValue k1)))
      (pad (of_Z dim) (Handlers.sliderValue k2))
  = of_Z (dim + dim * (10 * Z.of_nat k1) / 100 + dim * (10 * Z.of_nat k2) / 100).
Proof.
  intros Hd H1 H2 Hsum.
  assert (P1 : 0 <= dim * (10 * Z.of_nat k1) / 100) by (apply Z.div_pos; lia).
  assert (P2 : 0 <= dim * (10 * Z.of_nat k2) / 100) by (apply Z.div_pos; lia).
  rewrite !pad_notch by (auto; lia).
  rewrite !add_of_Z by lia. reflexivity.
Qed.

Lemma composite_exact_notches (image : Img.Image) (s : ExpansionSettings)
    (ctx : Canvas.Canvas) (kt kb kl kr : nat) :
  In kt [0%nat; 5%nat; 10%nat] -> In kb [0%nat; 5%nat; 10%nat] ->
  In kl [0%nat; 5%nat; 10%nat] -> In kr [0%nat; 5%nat; 10%nat] ->
  top s = Handlers.sliderValue kt -> bottom s = Handlers.sliderValue kb ->
  left s = Handlers.sliderValue kl -> right s = Handlers.sliderValue kr ->
  Z.of_N (Img.width image) + Z.of_N (Img.width image) * (10 * Z.of_nat kl) / 100
  + Z.of_N (Img.width image) * (10 * Z.of_nat kr) / 100 <= 2147483647 ->
  Z.of_N (Img.height image) + Z.of_N (Img.height image) * (10 * Z.of_nat kt) / 100
  + Z.of_N (Img.height image) * (10 * Z.of_nat kb) / 100 <= 2147483647 ->
  Canvas.width (composite image s ctx)
  = Z.of_N (Img.width image) + Z.of_N (Img.width image) * (10 * Z.of_nat kl) / 100
    + Z.of_N (Img.width image) * (10 * Z.of_nat kr) / 100
  /\ Canvas.height (composite image s ctx)
     = Z.of_N (Img.height image) + Z.of_N (Img.height image) * (10 * Z.of_nat kt) / 100
       + Z.of_N (Img.height image) * (10 * Z.of_nat kb) / 100
  /\ truncZ (padLeft image s)
     = Some (Z.of_N (Img.width image) * (10 * Z.of_nat kl) / 100)
  /\ truncZ (padTop image s)
     = Some (Z.of_N (Img.height image) * (10 * Z.of_nat kt) / 100).
Proof.
  intros Hkt Hkb Hkl Hkr Et Eb El Er HW HH.
  pose proof (N2Z.is_nonneg (Img.width image)) as Hw.
  pose proof (N2Z.is_nonneg (Img.height image)) as Hh.
  assert (Pl : 0 <= Z.of_N (Img.width image) * (10 * Z.of_nat kl) / 100)
    by (apply Z.div_pos; lia).
  assert (Pr : 0 <= Z.of_N (Img.width image) * (10 * Z.of_nat kr) / 100)
    by (apply Z.div_pos; lia).
  assert (Pt : 0 <= Z.of_N (Img.height image) * (10 * Z.of_nat kt) / 100)
    by (apply Z.div_pos; lia).
  assert (Pb : 0 <= Z.of_N (Img.height image) * (10 * Z.of_nat kb) / 100)
    by (apply Z.div_pos; lia).
  rewrite composite_width, composite_height.
  unfold newWidth, newHeight, padLeft, padRight, padTop, padBottom, w, h.
  rewrite Et, Eb, El, Er.
  rewrite !extent_notch by (auto; lia).
  rewrite !dimension_of_Z by lia.
  rewrite !pad_notch by (auto; lia).
  rewrite !truncZ_of_Z by lia.
  repeat split.
Qed.

(** X13: for the slider values 0, 50 and 100 nothing is lost to
    rounding: each pad is the floor of that percentage of the
    dimension and the canvas is the image plus its pads, as long as
    the sums stay within 2^31 - 1. *)
Theorem exact_pads_at_0_50_100 (image : Img.Image) (s : ExpansionSettings)
    (ctx : Canvas.Canvas) (kt kb kl kr : nat) :
  In kt [0%nat; 5%nat; 10%nat] -> In kb [0%nat; 5%nat; 10%nat] ->
  In kl [0%nat; 5%nat; 10%nat] -> In kr [0%nat; 5%nat; 10%nat] ->
  top s = Handlers.sliderValue kt -> bottom s = Handlers.sliderValue kb ->
  left s = Handlers.sliderValue kl -> right s = Handlers.sliderValue kr ->
  Z.of_N (Img.width image) + Z.of_N (Img.width image) * (10 * Z.of_nat kl) / 100
  + Z.of_N (Img.width image) * (10 * Z.of_nat kr) / 100 <= 2147483647 ->
  Z.of_N (Img.height image) + Z.of_N (Img.height image) * (10 * Z.of_nat kt) / 100
  + Z.of_N (Img.height image) * (10 * Z.of_nat kb) / 100 <= 2147483647 ->
  Canvas.width (composite image s ctx)
  = Z.of_N (Img.width image) + Z.of_N (Img.width image) * (10 * Z.of_nat kl) / 100
    + Z.of_N (Img.width image) * (10 * Z.of_nat kr) / 100
  /\ Canvas.height (composite image s ctx)
     = Z.of_N (Img.height image) + Z.of_N (Img.height image) * (10 * Z.of_nat kt) / 100
       + Z.of_N (Img.height image) * (10 * Z.of_nat kb) / 100
  /\ truncZ (padLeft image s)
     = Some (Z.of_N (Img.width image) * (10 * Z.of_nat kl) / 100)
  /\ truncZ (padTop image s)
     = Some (Z.of_N (Img.height image) * (10 * Z.of_nat kt) / 100).
Proof. exact (composite_exact_notches image s ctx kt kb kl kr). Qed.

Lemma isZero_zero (v : number) : App.isZero v = true -> exists s, v = S754_zero s.
Proof.
  destruct v as [s|s| |s m e].
  - intros _. now exists s.
  - destruct s; discriminate.
  - discriminate.
  - destruct s; discriminate.
Qed.

Lemma add_zero (z : Z) (s : bool) :
  0 <= z < 2 ^ 53 -> add (of_Z z) (S754_zero s) = of_Z z.
Proof.
  intros Hz. destruct (of_Z_shape z Hz) as [[-> _]|(v & -> & ->)].
  - now destruct s.
  - destruct (normal_mantissa v ltac:(lia)) as (c & -> & _). reflexivity.
Qed.

(** X14: with all four percentages zero the canvas has the size of
    the image and holds the image drawn on white, with no border:
    every opaque pixel is the source pixel, every fully transparent
    one is white, and any other is the browser's blend of the source
    pixel with white. *)
Theorem zero_settings_show_the_image (image : Img.Image) (s : ExpansionSettings)
    (ctx : Canvas.Canvas) :
  App.isZero (top s) = true -> App.isZero (bottom s) = true ->
  App.isZero (left s) = true -> App.isZero (right s) = true ->
  Z.of_N (Img.width image) <= 2147483647 ->
  Z.of_N (Img.height image) <= 2147483647 ->
  Canvas.width (composite image s ctx) = Z.of_N (Img.width image)
  /\ Canvas.height (composite image s ctx) = Z.of_N (Img.height image)
  /\ forall x y,
      0 <= x < Z.of_N (Img.width image) ->
      0 <= y < Z.of_N (Img.height image) ->
      (alpha (Img.pixelAt image x y) = 255 ->
       Canvas.bitmap (composite image s ctx) x y = Img.pixelAt image x y)
      /\ (alpha (Img.pixelAt image x y) = 0 ->
          Canvas.bitmap (composite image s ctx) x y = mkRGBA 255 255 255 255)
      /\ (alpha (Img.pixelAt image x y) <> 255 ->
          alpha (Img.pixelAt image x y) <> 0 ->
          Canvas.bitmap (composite image s ctx) x y
          = blend (Img.pixelAt image x y) (mkRGBA 255 255 255 255)).
Proof.
  intros Ht Hb Hl Hr HW HH.
  destruct (isZero_zero _ Ht) as (st & Et). destruct (isZero_zero _ Hb) as (sb & Eb).
  destruct (isZero_zero _ Hl) as (sl & El). destruct (isZero_zero _ Hr) as (sr & Er).
  pose proof (N2Z.is_nonneg (Img.width image)) as Hw.
  pose proof (N2Z.is_nonneg (Img.height image)) as Hh.
  assert (Pl : padLeft image s = S754_zero sl)
    by (unfold padLeft, w; rewrite El; apply pad_none; lia).
  assert (Pr : padRight image s = S754_zero sr)
    by (unfold padRight, w; rewrite Er; apply pad_none; lia).
  assert (Pt : padTop image s = S754_zero st)
    by (unfold padTop, h; rewrite Et; apply pad_none; lia).
  assert (Pb : padBottom image s = S754_zero sb)
    by (unfold padBottom, h; rewrite Eb; apply pad_none; lia).
  assert (NW : newWidth image s = of_Z (Z.of_N (Img.width image))).
  { unfold newWidth. rewrite Pl, Pr. unfold w. rewrite !add_zero by lia. reflexivity. }
  assert (NH : newHeight image s = of_Z (Z.of_N (Img.height image))).
  { unfold newHeight. rewrite Pt, Pb. unfold h. rewrite !add_zero by lia. reflexivity. }
  split; [|split].
  - rewrite composite_width, NW. apply dimension_of_Z. lia.
  - rewrite composite_height, NH. apply dimension_of_Z. lia.
  - intros x y Hx Hy.
    assert (B : Canvas.bitmap (composite image s ctx) x y
                = source_over (Img.pixelAt image x y) white).
    { rewrite (composite_bitmap image s ctx 0 0
                 (Z.of_N (Img.width image)) (Z.of_N (Img.height image)) x y).
      - cbv zeta. unfold Canvas.inSpan.
        rewrite !Z.add_0_l, !Z.sub_0_r.
        rewrite Z.min_l, Z.max_r by lia. rewrite Z.min_l, Z.max_r by lia.
        destruct Hx as [Hx1 Hx2], Hy as [Hy1 Hy2].
        apply Z.leb_le in Hx1, Hy1. apply Z.ltb_lt in Hx2, Hy2.
        rewrite Hx1, Hx2, Hy1, Hy2. reflexivity.
      - now rewrite Pl.
      - now rewrite Pt.
      - rewrite NW. apply truncZ_of_Z. lia.
      - rewrite NH. apply truncZ_of_Z. lia. }
    rewrite B. split; [|split].
    + intros Ha. now apply source_over_opaque_source.
    + intros Ha. now apply source_over_clear_source.
    + intros H1 H0. now apply source_over_partial.
Qed.

End ExactPads.


(** ** After an upload *)

Section Upload.
Import JS App Handlers.
Context {service : Gemini.GenAI} {encoder : Canvas.PngEncoder}
        {blender : Pixel.Blender}.

(** X15: once a file has loaded the component is editing that image
    with 50 percent on the right and nothing elsewhere: the guard of
    [handleGenerate] lets it through, and the canvas is the image with
    half its width added on the right. *)
Theorem upload_default_canvas (result : string) (st : State)
    (image : Img.Image) (ctx : Canvas.Canvas) :
  result <> EmptyString ->
  (Z.of_N (Img.width image) + Z.of_N (Img.width image) / 2 <= 2147483647)%Z ->
  (Z.of_N (Img.height image) <= 2147483647)%Z ->
  appState (handleFileUpload (Some (Some result)) st) = EDITING
  /\ originalImage (handleFileUpload (Some (Some result)) st) = Some result
  /\ editorShown (handleFileUpload (Some (Some result)) st) = true
  /\ expansionAsked (settings (handleFileUpload (Some (Some result)) st)) = true
  /\ Canvas.width (CanvasEditor.composite image
                     (settings (handleFileUpload (Some (Some result)) st)) ctx)
     = (Z.of_N (Img.width image) + Z.of_N (Img.width image) / 2)%Z
  /\ Canvas.height (CanvasEditor.composite image
                      (settings (handleFileUpload (Some (Some result)) st)) ctx)
     = Z.of_N (Img.height image)
  /\ truncZ (CanvasEditor.padLeft image
               (settings (handleFileUpload (Some (Some result)) st))) = Some 0%Z
  /\ truncZ (CanvasEditor.padTop image
               (settings (handleFileUpload (Some (Some result)) st))) = Some 0%Z.
Proof.
  intros Hne HW HH.
  assert (T : truthy result = true) by now apply truthy_iff.
  unfold handleFileUpload, fileLoaded. cbn [truthy_opt]. rewrite T.
  cbn [appState originalImage settings editorShown truthy_opt]. rewrite T.
  repeat (split; [reflexivity|]).
  assert (Hw2 : (Z.of_N (Img.width image) * (10 * Z.of_nat 5) / 100
                 = Z.of_N (Img.width image) / 2)%Z).
  { change (10 * Z.of_nat 5)%Z with (1 * 50)%Z. change 100%Z with (2 * 50)%Z.
    rewrite Z.mul_assoc, Z.mul_1_r. apply Z.div_mul_cancel_r; lia. }
  assert (Hz : forall d : Z, (d * (10 * Z.of_nat 0) / 100 = 0)%Z).
  { intros d. change (10 * Z.of_nat 0)%Z with 0%Z. now rewrite Z.mul_0_r. }
  assert (I0 : In 0%nat [0%nat; 5%nat; 10%nat]) by (simpl; auto).
  assert (I5 : In 5%nat [0%nat; 5%nat; 10%nat]) by (simpl; auto).
  destruct (composite_exact_notches image
              (mkSettings (of_Z 0) (of_Z 0) (of_Z 0) (of_Z 50)
                          (prompt INITIAL_SETTINGS))
              ctx 0 0 0 5 I0 I0 I0 I5 eq_refl eq_refl eq_refl eq_refl)
    as (Ew & Eh & El & Et).
  - rewrite Hz, Hw2. lia.
  - rewrite !Hz. lia.
  - rewrite Ew, Eh, El, Et, !Hz, Hw2, !Z.add_0_r.
    repeat split; reflexivity.
Qed.

Lemma raster_blank (p : Pixel.RGBA) :
  In p (Canvas.raster Canvas.blank) -> p = Pixel.transparentBlack.
Proof.
  unfold Canvas.raster. intros Hin.
  apply in_flat_map in Hin as (y & _ & Hin).
  apply in_map_iff in Hin as (x & <- & _). reflexivity.
Qed.

(** X16: when [handleGenerate] runs on a freshly mounted editor whose
    image has not been decoded, the request carries the encoding of
    the untouched 300 by 150 canvas, every pixel transparent, or the
    text [data:,] should the browser not encode it. *)
Theorem generate_before_decode_sends_blank (st : State) :
  canvasRef st
  = Some (CanvasEditor.redraw (settings st)
            (CanvasEditor.mkEditor None (Some Canvas.blank))) ->
  expansionAsked (settings st) = true ->
  map Gemini.imagePayloads (sent (handleGenerate st))
  = [[match Canvas.encodePNG 300 150 (Canvas.raster Canvas.blank) with
      | Some png => png
      | None => "data:,"
      end]]
  /\ forall p, In p (Canvas.raster Canvas.blank) -> p = Pixel.mkRGBA 0 0 0 0.
Proof.
  intros Href Hask. split; [|exact raster_blank].
  pose proof (handleGenerate_cases st) as C. rewrite Href, Hask in C.
  destruct C as (url & Hurl & Hsent & _). rewrite Hsent.
  rewrite getCanvasDataUrl_returns in Hurl.
  cbn [CanvasEditor.redraw CanvasEditor.imageObj CanvasEditor.canvasRef] in Hurl.
  injection Hurl as <-.
  cbn [map]. unfold Gemini.imagePayloads, Gemini.buildRequest.
  cbn [Gemini.contents Gemini.partsOf Gemini.parts flat_map Gemini.textPart
       Gemini.imagePart Gemini.inlineData Gemini.data app].
  rewrite toDataURL_stripped. reflexivity.
Qed.

End Upload.

(** ** Instances *)

Lemma returned_image_shape_witness :
  exists mime payload,
    "data:image/png;base64,AAAA" = "data:" ++ mime ++ ";base64," ++ payload
    /\ mime <> EmptyString /\ payload <> EmptyString.
Proof.
  destruct (@returned_image_shape Scenario.imageService "AAAA" "a sunset"
              "data:image/png;base64,AAAA" eq_refl)
    as (mime & payload & E & Hm & Hp & _).
  exists mime, payload. repeat split; assumption.
Defined.

Lemma later_candidates_ignored_witness :
  Gemini.answer (@Gemini.expandImage Scenario.twoCandidates "AAAA" "a sunset")
  = Gemini.answer
      (@Gemini.expandImage (Sample.answering [Gemini.textPart "sorry"]) "AAAA" "a sunset")
  /\ Gemini.answer (@Gemini.expandImage Scenario.twoCandidates "AAAA" "a sunset")
     = JS.Throws (JS.mkError "No image data returned from Gemini. The model may have refused the request or generated only text.").
Proof.
  destruct (later_candidates_ignored Scenario.twoCandidates
              (Sample.answering [Gemini.textPart "sorry"]) "AAAA" "a sunset"
              (Scenario.candidateOf [Gemini.textPart "sorry"])
              [Scenario.candidateOf [Gemini.imagePart "image/png" "AAAA"]] []
              eq_refl eq_refl) as (Hsame & Hnone).
  split; [exact Hsame|].
  apply (Hnone _ [Gemini.textPart "sorry"] eq_refl eq_refl).
  simpl. intros part [<-|[]]. reflexivity.
Defined.

Lemma returned_image_strips_back_witness :
  Gemini.stripDataUrlPrefix (Gemini.dataUrlOf (Some "image/jpeg") "AAAA") = "AAAA".
Proof.
  apply returned_image_strips_back.
  right. right. exists "jpeg". split; [simpl; auto|reflexivity].
Defined.

Lemma generate_outcomes_witness :
  (App.appState (App.final (@App.handleGenerate Scenario.imageService Sample.tally
                              Scenario.uploaded)) = COMPLETE
   /\ App.generatedImage
        (App.final (@App.handleGenerate Scenario.imageService Sample.tally
                      Scenario.uploaded))
      = Some "data:image/png;base64,AAAA")
  /\ (App.appState (App.final (@App.handleGenerate Scenario.failing Sample.tally
                                 Scenario.uploaded)) = ERROR
      /\ App.errorMsg
           (App.final (@App.handleGenerate Scenario.failing Sample.tally
                         Scenario.uploaded))
         = Some "Failed to generate image. Please try again.")
  /\ (App.appState (App.final (@App.handleGenerate Scenario.mute Sample.tally
                                 Scenario.uploaded)) = GENERATING
      /\ App.errorMsg
           (App.final (@App.handleGenerate Scenario.mute Sample.tally
                         Scenario.uploaded))
         = None).
Proof.
  split; [|split].
  - destruct (@generate_outcomes Scenario.imageService Sample.tally Scenario.uploaded
                _ eq_refl eq_refl) as (url & Hurl & H).
    injection Hurl as <-. destruct H as (Hs & Hg & _). split; [exact Hs|exact Hg].
  - destruct (@generate_outcomes Scenario.failing Sample.tally Scenario.uploaded
                _ eq_refl eq_refl) as (url & Hurl & H).
    injection Hurl as <-. destruct H as (Hs & Hm & _). split; [exact Hs|exact Hm].
  - destruct (@generate_outcomes Scenario.mute Sample.tally Scenario.uploaded
                _ eq_refl eq_refl) as (url & Hurl & H).
    injection Hurl as <-. destruct H as (Hs & Hm & _). split; [exact Hs|exact Hm].
Defined.

Lemma generate_keeps_witness :
  App.sent (@App.handleGenerate Scenario.failing Sample.tally
              (App.final (@App.handleGenerate Scenario.failing Sample.tally
                            Scenario.uploaded)))
  = App.sent (@App.handleGenerate Scenario.failing Sample.tally Scenario.uploaded).
Proof.
  exact (proj2 (proj2 (@generate_keeps Scenario.failing Sample.tally Scenario.uploaded))
           eq_refl).
Defined.

Lemma handleGenerate_reachable_witness :
  Handlers.reachable
    (App.final (@App.handleGenerate Scenario.failing Sample.tally Scenario.uploaded)).
Proof.
  apply handleGenerate_reachable.
  unfold Scenario.uploaded.
  eapply Handlers.reach_step; [|apply Handlers.step_attach].
  eapply Handlers.reach_step; [apply Handlers.reach_initial|apply Handlers.step_file].
Defined.

Lemma reachable_settings_are_sliders_witness :
  JS.ge0 (right (App.settings Scenario.uploaded)) = true
  /\ JS.truncZ (right (App.settings Scenario.uploaded)) = Some 50%Z.
Proof.
  assert (R : Handlers.reachable Scenario.uploaded).
  { unfold Scenario.uploaded.
    eapply Handlers.reach_step; [|apply Handlers.step_attach].
    eapply Handlers.reach_step; [apply Handlers.reach_initial|apply Handlers.step_file]. }
  destruct (reachable_settings_are_sliders Scenario.uploaded R)
    as (_ & _ & _ & _ & Hr).
  split; [exact Hr|reflexivity].
Defined.

Lemma reachable_canvas_pixels_witness :
  Canvas.bitmap (@CanvasEditor.composite Sample.rounding Scenario.picture
                   (App.settings Scenario.uploaded) Canvas.blank) 2 0
  = Pixel.mkRGBA 255 255 255 255
  /\ Canvas.bitmap (@CanvasEditor.composite Sample.rounding Scenario.picture
                      (App.settings Scenario.uploaded) Canvas.blank) 1 0
     = Pixel.mkRGBA 0 0 0 255.
Proof.
  assert (R : Handlers.reachable Scenario.uploaded).
  { unfold Scenario.uploaded.
    eapply Handlers.reach_step; [|apply Handlers.step_attach].
    eapply Handlers.reach_step; [apply Handlers.reach_initial|apply Handlers.step_file]. }
  assert (Hy : (0 <= 0 < Canvas.height
                          (@CanvasEditor.composite Sample.rounding Scenario.picture
                             (App.settings Scenario.uploaded) Canvas.blank))%Z).
  { rewrite composite_height. vm_compute. split; [discriminate|reflexivity]. }
  assert (Hx : forall x : Z,
             (0 <= x < 3)%Z ->
             (0 <= x < Canvas.width
                        (@CanvasEditor.composite Sample.rounding Scenario.picture
                           (App.settings Scenario.uploaded) Canvas.blank))%Z).
  { intros x Hx. rewrite composite_width. exact Hx. }
  pose proof (fun x H =>
                @reachable_canvas_pixels Sample.rounding Scenario.uploaded
                  Scenario.picture Canvas.blank 0%Z 0%Z x 0%Z R
                  eq_refl eq_refl eq_refl eq_refl (Hx x H) Hy) as P.
  cbv zeta in P. split.
  - apply (proj1 (P 2%Z ltac:(lia))). simpl. lia.
  - destruct (proj2 (P 1%Z ltac:(lia)) ltac:(simpl; lia)) as (Hop & _).
    apply Hop. reflexivity.
Defined.

Lemma reachable_complete_shows_result_witness :
  Handlers.resultShown
    (Handlers.succeed "data:image/png;base64,AAAA" (Handlers.begin Scenario.uploaded))
  = true.
Proof.
  refine (proj1 (reachable_complete_shows_result
                   (Handlers.succeed "data:image/png;base64,AAAA"
                      (Handlers.begin Scenario.uploaded)) _ eq_refl)).
  eapply Handlers.reach_step.
  - eapply Handlers.reach_step; [|apply Handlers.step_begin].
    unfold Scenario.uploaded.
    eapply Handlers.reach_step; [|apply Handlers.step_attach].
    eapply Handlers.reach_step; [apply Handlers.reach_initial|apply Handlers.step_file].
  - apply (Handlers.step_succeed
             (Gemini.mkResponse
                (Some [Scenario.candidateOf [Gemini.imagePart "image/png" "AAAA"]]))).
    reflexivity.
Defined.

Lemma reachable_error_has_message_witness :
  exists msg,
    App.errorMsg (Handlers.fail (JS.mkError EmptyString) (Handlers.begin Scenario.uploaded))
    = Some msg /\ msg <> EmptyString.
Proof.
  refine (proj1 (reachable_error_has_message
                   (Handlers.fail (JS.mkError EmptyString)
                      (Handlers.begin Scenario.uploaded)) _) eq_refl).
  eapply Handlers.reach_step; [|apply Handlers.step_fail].
  eapply Handlers.reach_step; [|apply Handlers.step_begin].
  unfold Scenario.uploaded.
  eapply Handlers.reach_step; [|apply Handlers.step_attach].
  eapply Handlers.reach_step; [apply Handlers.reach_initial|apply Handlers.step_file].
Defined.

Lemma generate_sends_the_composite_witness :
  map Gemini.imagePayloads
      (App.sent (@App.handleGenerate Scenario.imageService Sample.tally
                   Scenario.uploaded))
  = [["wwwhhoooooo"]]
  /\ map Gemini.imagePayloads
       (App.sent (@App.handleGenerate Scenario.imageService Scenario.refusing
                    Scenario.uploaded))
     = [["data:,"]].
Proof.
  split.
  - refine (proj1 (@generate_sends_the_composite Scenario.imageService Sample.tally
                     Sample.rounding Scenario.uploaded Scenario.picture Canvas.blank
                     (Canvas.mkCanvas 1 1 (fun _ _ => Pixel.white) Canvas.Bound2D
                        Pixel.white)
                     eq_refl _ eq_refl eq_refl)).
    discriminate.
  - refine (proj1 (@generate_sends_the_composite Scenario.imageService
                     Scenario.refusing
                     Sample.rounding Scenario.uploaded Scenario.picture Canvas.blank
                     (Canvas.mkCanvas 1 1 (fun _ _ => Pixel.white) Canvas.Bound2D
                        Pixel.white)
                     eq_refl _ eq_refl eq_refl)).
    discriminate.
Defined.

Lemma exact_pads_at_0_50_100_witness :
  Canvas.width (@CanvasEditor.composite Sample.rounding (Sample.plain 100 200 Pixel.black)
                  (Sample.settingsOf 0 0 50 0 EmptyString) Canvas.blank) = 150%Z
  /\ Canvas.height (@CanvasEditor.composite Sample.rounding
                      (Sample.plain 100 200 Pixel.black)
                      (Sample.settingsOf 0 0 50 0 EmptyString) Canvas.blank) = 200%Z.
Proof.
  assert (I0 : In 0%nat [0%nat; 5%nat; 10%nat]) by (simpl; auto).
  assert (I5 : In 5%nat [0%nat; 5%nat; 10%nat]) by (simpl; auto).
  destruct (@exact_pads_at_0_50_100 Sample.rounding (Sample.plain 100 200 Pixel.black)
              (Sample.settingsOf 0 0 50 0 EmptyString) Canvas.blank 0 0 5 0
              I0 I0 I5 I0 eq_refl eq_refl eq_refl eq_refl)
    as (Ew & Eh & _).
  - simpl. lia.
  - simpl. lia.
  - split; [exact Ew|exact Eh].
Defined.

Lemma zero_settings_show_the_image_witness :
  let drawn := @CanvasEditor.composite Sample.rounding Scenario.patchwork
                 (Sample.settingsOf 0 0 0 0 EmptyString) Canvas.blank in
  Canvas.width drawn = 3%Z
  /\ Canvas.bitmap drawn 0 0 = Pixel.mkRGBA 0 0 0 255
  /\ Canvas.bitmap drawn 1 0 = Pixel.mkRGBA 255 255 255 255
  /\ Canvas.bitmap drawn 2 0
     = @Pixel.blend Sample.rounding (Pixel.mkRGBA 200 100 50 100)
         (Pixel.mkRGBA 255 255 255 255).
Proof.
  cbv zeta.
  destruct (@zero_settings_show_the_image Sample.rounding Scenario.patchwork
              (Sample.settingsOf 0 0 0 0 EmptyString) Canvas.blank
              eq_refl eq_refl eq_refl eq_refl)
    as (Ew & _ & Hpix).
  - simpl. lia.
  - simpl. lia.
  - split; [exact Ew|]. split; [|split].
    + destruct (Hpix 0%Z 0%Z ltac:(simpl; lia) ltac:(simpl; lia)) as (Hop & _ & _).
      apply Hop. reflexivity.
    + destruct (Hpix 1%Z 0%Z ltac:(simpl; lia) ltac:(simpl; lia)) as (_ & Hclear & _).
      apply Hclear. reflexivity.
    + destruct (Hpix 2%Z 0%Z ltac:(simpl; lia) ltac:(simpl; lia)) as (_ & _ & Hpart).
      apply Hpart; vm_compute; discriminate.
Defined.

Lemma upload_default_canvas_witness :
  Canvas.width
    (@CanvasEditor.composite Sample.rounding (Sample.plain 100 200 Pixel.black)
       (App.settings (Handlers.handleFileUpload
                        (Some (Some "data:image/png;base64,QUJD")) Handlers.initial))
       Canvas.blank)
  = (100 + 100 / 2)%Z.
Proof.
  destruct (@upload_default_canvas Sample.rounding "data:image/png;base64,QUJD"
              Handlers.initial (Sample.plain 100 200 Pixel.black) Canvas.blank)
    as (_ & _ & _ & _ & Ew & _).
  - discriminate.
  - simpl. lia.
  - simpl. lia.
  - exact Ew.
Defined.

Lemma generate_before_decode_sends_blank_witness :
  map Gemini.imagePayloads
      (App.sent (@App.handleGenerate Scenario.imageService Sample.tally
                   Scenario.undecoded))
  = [[match @Canvas.encodePNG Sample.tally 300 150 (Canvas.raster Canvas.blank) with
      | Some png => png
      | None => "data:,"
      end]].
Proof.
  exact (proj1 (@generate_before_decode_sends_blank Scenario.imageService
                  Sample.tally Sample.rounding Scenario.undecoded eq_refl eq_refl)).
Defined.
